(** * The spaCy preprocessing notebook: chunking, dispatch, flattening,
      cleaning and lemma filtering

    A shallow embedding of the functions of [spacy_multiprocess.ipynb]:
    [cleaner], [lemmatize], [lemmatize_pipe], [preprocess_pipe], [chunker],
    [flatten], [process_chunk] and [preprocess_parallel], with the Python
    primitives they rest on ([range], slicing, [str.lower], [re.findall] for
    the one pattern of the notebook).

    A Python [str] is modelled by the string of the bytes of its UTF-8
    encoding; the characters of the ASCII range are single bytes. *)

From Stdlib Require Import ZArith Ascii String List Lia Bool.
From Equations Require Import Equations.
From stdpp Require Import base gmap sets list strings.

Open Scope Z_scope.

(** ** The Unicode character database

    The case tables of Unicode 14.0, as CPython 3.11 carries them: what
    [str.lower] and [str.isupper] consult. Code points are numbers. *)

Module Unicode.

(** The code points with a lowercase mapping of one code point that differs
    from them, each with its mapping. *)
Definition lower_table : list (N * N) :=
  [
   (65, 97); (66, 98); (67, 99); (68, 100); (69, 101); (70, 102); (71, 103);
   (72, 104); (73, 105); (74, 106); (75, 107); (76, 108); (77, 109);
   (78, 110); (79, 111); (80, 112); (81, 113); (82, 114); (83, 115);
   (84, 116); (85, 117); (86, 118); (87, 119); (88, 120); (89, 121);
   (90, 122); (192, 224); (193, 225); (194, 226); (195, 227); (196, 228);
   (197, 229); (198, 230); (199, 231); (200, 232); (201, 233); (202, 234);
   (203, 235); (204, 236); (205, 237); (206, 238); (207, 239); (208, 240);
   (209, 241); (210, 242); (211, 243); (212, 244); (213, 245); (214, 246);
   (216, 248); (217, 249); (218, 250); (219, 251); (220, 252); (221, 253);
   (222, 254); (256, 257); (258, 259); (260, 261); (262, 263); (264, 265);
   (266, 267); (268, 269); (270, 271); (272, 273); (274, 275); (276, 277);
   (278, 279); (280, 281); (282, 283); (284, 285); (286, 287); (288, 289);
   (290, 291); (292, 293); (294, 295); (296, 297); (298, 299); (300, 301);
   (302, 303); (306, 307); (308, 309); (310, 311); (313, 314); (315, 316);
   (317, 318); (319, 320); (321, 322); (323, 324); (325, 326); (327, 328);
   (330, 331); (332, 333); (334, 335); (336, 337); (338, 339); (340, 341);
   (342, 343); (344, 345); (346, 347); (348, 349); (350, 351); (352, 353);
   (354, 355); (356, 357); (358, 359); (360, 361); (362, 363); (364, 365);
   (366, 367); (368, 369); (370, 371); (372, 373); (374, 375); (376, 255);
   (377, 378); (379, 380); (381, 382); (385, 595); (386, 387); (388, 389);
   (390, 596); (391, 392); (393, 598); (394, 599); (395, 396); (398, 477);
   (399, 601); (400, 603); (401, 402); (403, 608); (404, 611); (406, 617);
   (407, 616); (408, 409); (412, 623); (413, 626); (415, 629); (416, 417);
   (418, 419); (420, 421); (422, 640); (423, 424); (425, 643); (428, 429);
   (430, 648); (431, 432); (433, 650); (434, 651); (435, 436); (437, 438);
   (439, 658); (440, 441); (444, 445); (452, 454); (453, 454); (455, 457);
   (456, 457); (458, 460); (459, 460); (461, 462); (463, 464); (465, 466);
   (467, 468); (469, 470); (471, 472); (473, 474); (475, 476); (478, 479);
   (480, 481); (482, 483); (484, 485); (486, 487); (488, 489); (490, 491);
   (492, 493); (494, 495); (497, 499); (498, 499); (500, 501); (502, 405);
   (503, 447); (504, 505); (506, 507); (508, 509); (510, 511); (512, 513);
   (514, 515); (516, 517); (518, 519); (520, 521); (522, 523); (524, 525);
   (526, 527); (528, 529); (530, 531); (532, 533); (534, 535); (536, 537);
   (538, 539); (540, 541); (542, 543); (544, 414); (546, 547); (548, 549);
   (550, 551); (552, 553); (554, 555); (556, 557); (558, 559); (560, 561);
   (562, 563); (570, 11365); (571, 572); (573, 410); (574, 11366);
   (577, 578); (579, 384); (580, 649); (581, 652); (582, 583); (584, 585);
   (586, 587); (588, 589); (590, 591); (880, 881); (882, 883); (886, 887);
   (895, 1011); (902, 940); (904, 941); (905, 942); (906, 943); (908, 972);
   (910, 973); (911, 974); (913, 945); (914, 946); (915, 947); (916, 948);
   (917, 949); (918, 950); (919, 951); (920, 952); (921, 953); (922, 954);
   (923, 955); (924, 956); (925, 957); (926, 958); (927, 959); (928, 960);
   (929, 961); (931, 963); (932, 964); (933, 965); (934, 966); (935, 967);
   (936, 968); (937, 969); (938, 970); (939, 971); (975, 983); (984, 985);
   (986, 987); (988, 989); (990, 991); (992, 993); (994, 995); (996, 997);
   (998, 999); (1000, 1001); (1002, 1003); (1004, 1005); (1006, 1007);
   (1012, 952); (1015, 1016); (1017, 1010); (1018, 1019); (1021, 891);
   (1022, 892); (1023, 893); (1024, 1104); (1025, 1105); (1026, 1106);
   (1027, 1107); (1028, 1108); (1029, 1109); (1030, 1110); (1031, 1111);
   (1032, 1112); (1033, 1113); (1034, 1114); (1035, 1115); (1036, 1116);
   (1037, 1117); (1038, 1118); (1039, 1119); (1040, 1072); (1041, 1073);
   (1042, 1074); (1043, 1075); (1044, 1076); (1045, 1077); (1046, 1078);
   (1047, 1079); (1048, 1080); (1049, 1081); (1050, 1082); (1051, 1083);
   (1052, 1084); (1053, 1085); (1054, 1086); (1055, 1087); (1056, 1088);
   (1057, 1089); (1058, 1090); (1059, 1091); (1060, 1092); (1061, 1093);
   (1062, 1094); (1063, 1095); (1064, 1096); (1065, 1097); (1066, 1098);
   (1067, 1099); (1068, 1100); (1069, 1101); (1070, 1102); (1071, 1103);
   (1120, 1121); (1122, 1123); (1124, 1125); (1126, 1127); (1128, 1129);
   (1130, 1131); (1132, 1133); (1134, 1135); (1136, 1137); (1138, 1139);
   (1140, 1141); (1142, 1143); (1144, 1145); (1146, 1147); (1148, 1149);
   (1150, 1151); (1152, 1153); (1162, 1163); (1164, 1165); (1166, 1167);
   (1168, 1169); (1170, 1171); (1172, 1173); (1174, 1175); (1176, 1177);
   (1178, 1179); (1180, 1181); (1182, 1183); (1184, 1185); (1186, 1187);
   (1188, 1189); (1190, 1191); (1192, 1193); (1194, 1195); (1196, 1197);
   (1198, 1199); (1200, 1201); (1202, 1203); (1204, 1205); (1206, 1207);
   (1208, 1209); (1210, 1211); (1212, 1213); (1214, 1215); (1216, 1231);
   (1217, 1218); (1219, 1220); (1221, 1222); (1223, 1224); (1225, 1226);
   (1227, 1228); (1229, 1230); (1232, 1233); (1234, 1235); (1236, 1237);
   (1238, 1239); (1240, 1241); (1242, 1243); (1244, 1245); (1246, 1247);
   (1248, 1249); (1250, 1251); (1252, 1253); (1254, 1255); (1256, 1257);
   (1258, 1259); (1260, 1261); (1262, 1263); (1264, 1265); (1266, 1267);
   (1268, 1269); (1270, 1271); (1272, 1273); (1274, 1275); (1276, 1277);
   (1278, 1279); (1280, 1281); (1282, 1283); (1284, 1285); (1286, 1287);
   (1288, 1289); (1290, 1291); (1292, 1293); (1294, 1295); (1296, 1297);
   (1298, 1299); (1300, 1301); (1302, 1303); (1304, 1305); (1306, 1307);
   (1308, 1309); (1310, 1311); (1312, 1313); (1314, 1315); (1316, 1317);
   (1318, 1319); (1320, 1321); (1322, 1323); (1324, 1325); (1326, 1327);
   (1329, 1377); (1330, 1378); (1331, 1379); (1332, 1380); (1333, 1381);
   (1334, 1382); (1335, 1383); (1336, 1384); (1337, 1385); (1338, 1386);
   (1339, 1387); (1340, 1388); (1341, 1389); (1342, 1390); (1343, 1391);
   (1344, 1392); (1345, 1393); (1346, 1394); (1347, 1395); (1348, 1396);
   (1349, 1397); (1350, 1398); (1351, 1399); (1352, 1400); (1353, 1401);
   (1354, 1402); (1355, 1403); (1356, 1404); (1357, 1405); (1358, 1406);
   (1359, 1407); (1360, 1408); (1361, 1409); (1362, 1410); (1363, 1411);
   (1364, 1412); (1365, 1413); (1366, 1414); (4256, 11520); (4257, 11521);
   (4258, 11522); (4259, 11523); (4260, 11524); (4261, 11525); (4262, 11526);
   (4263, 11527); (4264, 11528); (4265, 11529); (4266, 11530); (4267, 11531);
   (4268, 11532); (4269, 11533); (4270, 11534); (4271, 11535); (4272, 11536);
   (4273, 11537); (4274, 11538); (4275, 11539); (4276, 11540); (4277, 11541);
   (4278, 11542); (4279, 11543); (4280, 11544); (4281, 11545); (4282, 11546);
   (4283, 11547); (4284, 11548); (4285, 11549); (4286, 11550); (4287, 11551);
   (4288, 11552); (4289, 11553); (4290, 11554); (4291, 11555); (4292, 11556);
   (4293, 11557); (4295, 11559); (4301, 11565); (5024, 43888); (5025, 43889);
   (5026, 43890); (5027, 43891); (5028, 43892); (5029, 43893); (5030, 43894);
   (5031, 43895); (5032, 43896); (5033, 43897); (5034, 43898); (5035, 43899);
   (5036, 43900); (5037, 43901); (5038, 43902); (5039, 43903); (5040, 43904);
   (5041, 43905); (5042, 43906); (5043, 43907); (5044, 43908); (5045, 43909);
   (5046, 43910); (5047, 43911); (5048, 43912); (5049, 43913); (5050, 43914);
   (5051, 43915); (5052, 43916); (5053, 43917); (5054, 43918); (5055, 43919);
   (5056, 43920); (5057, 43921); (5058, 43922); (5059, 43923); (5060, 43924);
   (5061, 43925); (5062, 43926); (5063, 43927); (5064, 43928); (5065, 43929);
   (5066, 43930); (5067, 43931); (5068, 43932); (5069, 43933); (5070, 43934);
   (5071, 43935); (5072, 43936); (5073, 43937); (5074, 43938); (5075, 43939);
   (5076, 43940); (5077, 43941); (5078, 43942); (5079, 43943); (5080, 43944);
   (5081, 43945); (5082, 43946); (5083, 43947); (5084, 43948); (5085, 43949);
   (5086, 43950); (5087, 43951); (5088, 43952); (5089, 43953); (5090, 43954);
   (5091, 43955); (5092, 43956); (5093, 43957); (5094, 43958); (5095, 43959);
   (5096, 43960); (5097, 43961); (5098, 43962); (5099, 43963); (5100, 43964);
   (5101, 43965); (5102, 43966); (5103, 43967); (5104, 5112); (5105, 5113);
   (5106, 5114); (5107, 5115); (5108, 5116); (5109, 5117); (7312, 4304);
   (7313, 4305); (7314, 4306); (7315, 4307); (7316, 4308); (7317, 4309);
   (7318, 4310); (7319, 4311); (7320, 4312); (7321, 4313); (7322, 4314);
   (7323, 4315); (7324, 4316); (7325, 4317); (7326, 4318); (7327, 4319);
   (7328, 4320); (7329, 4321); (7330, 4322); (7331, 4323); (7332, 4324);
   (7333, 4325); (7334, 4326); (7335, 4327); (7336, 4328); (7337, 4329);
   (7338, 4330); (7339, 4331); (7340, 4332); (7341, 4333); (7342, 4334);
   (7343, 4335); (7344, 4336); (7345, 4337); (7346, 4338); (7347, 4339);
   (7348, 4340); (7349, 4341); (7350, 4342); (7351, 4343); (7352, 4344);
   (7353, 4345); (7354, 4346); (7357, 4349); (7358, 4350); (7359, 4351);
   (7680, 7681); (7682, 7683); (7684, 7685); (7686, 7687); (7688, 7689);
   (7690, 7691); (7692, 7693); (7694, 7695); (7696, 7697); (7698, 7699);
   (7700, 7701); (7702, 7703); (7704, 7705); (7706, 7707); (7708, 7709);
   (7710, 7711); (7712, 7713); (7714, 7715); (7716, 7717); (7718, 7719);
   (7720, 7721); (7722, 7723); (7724, 7725); (7726, 7727); (7728, 7729);
   (7730, 7731); (7732, 7733); (7734, 7735); (7736, 7737); (7738, 7739);
   (7740, 7741); (7742, 7743); (7744, 7745); (7746, 7747); (7748, 7749);
   (7750, 7751); (7752, 7753); (7754, 7755); (7756, 7757); (7758, 7759);
   (7760, 7761); (7762, 7763); (7764, 7765); (7766, 7767); (7768, 7769);
   (7770, 7771); (7772, 7773); (7774, 7775); (7776, 7777); (7778, 7779);
   (7780, 7781); (7782, 7783); (7784, 7785); (7786, 7787); (7788, 7789);
   (7790, 7791); (7792, 7793); (7794, 7795); (7796, 7797); (7798, 7799);
   (7800, 7801); (7802, 7803); (7804, 7805); (7806, 7807); (7808, 7809);
   (7810, 7811); (7812, 7813); (7814, 7815); (7816, 7817); (7818, 7819);
   (7820, 7821); (7822, 7823); (7824, 7825); (7826, 7827); (7828, 7829);
   (7838, 223); (7840, 7841); (7842, 7843); (7844, 7845); (7846, 7847);
   (7848, 7849); (7850, 7851); (7852, 7853); (7854, 7855); (7856, 7857);
   (7858, 7859); (7860, 7861); (7862, 7863); (7864, 7865); (7866, 7867);
   (7868, 7869); (7870, 7871); (7872, 7873); (7874, 7875); (7876, 7877);
   (7878, 7879); (7880, 7881); (7882, 7883); (7884, 7885); (7886, 7887);
   (7888, 7889); (7890, 7891); (7892, 7893); (7894, 7895); (7896, 7897);
   (7898, 7899); (7900, 7901); (7902, 7903); (7904, 7905); (7906, 7907);
   (7908, 7909); (7910, 7911); (7912, 7913); (7914, 7915); (7916, 7917);
   (7918, 7919); (7920, 7921); (7922, 7923); (7924, 7925); (7926, 7927);
   (7928, 7929); (7930, 7931); (7932, 7933); (7934, 7935); (7944, 7936);
   (7945, 7937); (7946, 7938); (7947, 7939); (7948, 7940); (7949, 7941);
   (7950, 7942); (7951, 7943); (7960, 7952); (7961, 7953); (7962, 7954);
   (7963, 7955); (7964, 7956); (7965, 7957); (7976, 7968); (7977, 7969);
   (7978, 7970); (7979, 7971); (7980, 7972); (7981, 7973); (7982, 7974);
   (7983, 7975); (7992, 7984); (7993, 7985); (7994, 7986); (7995, 7987);
   (7996, 7988); (7997, 7989); (7998, 7990); (7999, 7991); (8008, 8000);
   (8009, 8001); (8010, 8002); (8011, 8003); (8012, 8004); (8013, 8005);
   (8025, 8017); (8027, 8019); (8029, 8021); (8031, 8023); (8040, 8032);
   (8041, 8033); (8042, 8034); (8043, 8035); (8044, 8036); (8045, 8037);
   (8046, 8038); (8047, 8039); (8072, 8064); (8073, 8065); (8074, 8066);
   (8075, 8067); (8076, 8068); (8077, 8069); (8078, 8070); (8079, 8071);
   (8088, 8080); (8089, 8081); (8090, 8082); (8091, 8083); (8092, 8084);
   (8093, 8085); (8094, 8086); (8095, 8087); (8104, 8096); (8105, 8097);
   (8106, 8098); (8107, 8099); (8108, 8100); (8109, 8101); (8110, 8102);
   (8111, 8103); (8120, 8112); (8121, 8113); (8122, 8048); (8123, 8049);
   (8124, 8115); (8136, 8050); (8137, 8051); (8138, 8052); (8139, 8053);
   (8140, 8131); (8152, 8144); (8153, 8145); (8154, 8054); (8155, 8055);
   (8168, 8160); (8169, 8161); (8170, 8058); (8171, 8059); (8172, 8165);
   (8184, 8056); (8185, 8057); (8186, 8060); (8187, 8061); (8188, 8179);
   (8486, 969); (8490, 107); (8491, 229); (8498, 8526); (8544, 8560);
   (8545, 8561); (8546, 8562); (8547, 8563); (8548, 8564); (8549, 8565);
   (8550, 8566); (8551, 8567); (8552, 8568); (8553, 8569); (8554, 8570);
   (8555, 8571); (8556, 8572); (8557, 8573); (8558, 8574); (8559, 8575);
   (8579, 8580); (9398, 9424); (9399, 9425); (9400, 9426); (9401, 9427);
   (9402, 9428); (9403, 9429); (9404, 9430); (9405, 9431); (9406, 9432);
   (9407, 9433); (9408, 9434); (9409, 9435); (9410, 9436); (9411, 9437);
   (9412, 9438); (9413, 9439); (9414, 9440); (9415, 9441); (9416, 9442);
   (9417, 9443); (9418, 9444); (9419, 9445); (9420, 9446); (9421, 9447);
   (9422, 9448); (9423, 9449); (11264, 11312); (11265, 11313);
   (11266, 11314); (11267, 11315); (11268, 11316); (11269, 11317);
   (11270, 11318); (11271, 11319); (11272, 11320); (11273, 11321);
   (11274, 11322); (11275, 11323); (11276, 11324); (11277, 11325);
   (11278, 11326); (11279, 11327); (11280, 11328); (11281, 11329);
   (11282, 11330); (11283, 11331); (11284, 11332); (11285, 11333);
   (11286, 11334); (11287, 11335); (11288, 11336); (11289, 11337);
   (11290, 11338); (11291, 11339); (11292, 11340); (11293, 11341);
   (11294, 11342); (11295, 11343); (11296, 11344); (11297, 11345);
   (11298, 11346); (11299, 11347); (11300, 11348); (11301, 11349);
   (11302, 11350); (11303, 11351); (11304, 11352); (11305, 11353);
   (11306, 11354); (11307, 11355); (11308, 11356); (11309, 11357);
   (11310, 11358); (11311, 11359); (11360, 11361); (11362, 619);
   (11363, 7549); (11364, 637); (11367, 11368); (11369, 11370);
   (11371, 11372); (11373, 593); (11374, 625); (11375, 592); (11376, 594);
   (11378, 11379); (11381, 11382); (11390, 575); (11391, 576);
   (11392, 11393); (11394, 11395); (11396, 11397); (11398, 11399);
   (11400, 11401); (11402, 11403); (11404, 11405); (11406, 11407);
   (11408, 11409); (11410, 11411); (11412, 11413); (11414, 11415);
   (11416, 11417); (11418, 11419); (11420, 11421); (11422, 11423);
   (11424, 11425); (11426, 11427); (11428, 11429); (11430, 11431);
   (11432, 11433); (11434, 11435); (11436, 11437); (11438, 11439);
   (11440, 11441); (11442, 11443); (11444, 11445); (11446, 11447);
   (11448, 11449); (11450, 11451); (11452, 11453); (11454, 11455);
   (11456, 11457); (11458, 11459); (11460, 11461); (11462, 11463);
   (11464, 11465); (11466, 11467); (11468, 11469); (11470, 11471);
   (11472, 11473); (11474, 11475); (11476, 11477); (11478, 11479);
   (11480, 11481); (11482, 11483); (11484, 11485); (11486, 11487);
   (11488, 11489); (11490, 11491); (11499, 11500); (11501, 11502);
   (11506, 11507); (42560, 42561); (42562, 42563); (42564, 42565);
   (42566, 42567); (42568, 42569); (42570, 42571); (42572, 42573);
   (42574, 42575); (42576, 42577); (42578, 42579); (42580, 42581);
   (42582, 42583); (42584, 42585); (42586, 42587); (42588, 42589);
   (42590, 42591); (42592, 42593); (42594, 42595); (42596, 42597);
   (42598, 42599); (42600, 42601); (42602, 42603); (42604, 42605);
   (42624, 42625); (42626, 42627); (42628, 42629); (42630, 42631);
   (42632, 42633); (42634, 42635); (42636, 42637); (42638, 42639);
   (42640, 42641); (42642, 42643); (42644, 42645); (42646, 42647);
   (42648, 42649); (42650, 42651); (42786, 42787); (42788, 42789);
   (42790, 42791); (42792, 42793); (42794, 42795); (42796, 42797);
   (42798, 42799); (42802, 42803); (42804, 42805); (42806, 42807);
   (42808, 42809); (42810, 42811); (42812, 42813); (42814, 42815);
   (42816, 42817); (42818, 42819); (42820, 42821); (42822, 42823);
   (42824, 42825); (42826, 42827); (42828, 42829); (42830, 42831);
   (42832, 42833); (42834, 42835); (42836, 42837); (42838, 42839);
   (42840, 42841); (42842, 42843); (42844, 42845); (42846, 42847);
   (42848, 42849); (42850, 42851); (42852, 42853); (42854, 42855);
   (42856, 42857); (42858, 42859); (42860, 42861); (42862, 42863);
   (42873, 42874); (42875, 42876); (42877, 7545); (42878, 42879);
   (42880, 42881); (42882, 42883); (42884, 42885); (42886, 42887);
   (42891, 42892); (42893, 613); (42896, 42897); (42898, 42899);
   (42902, 42903); (42904, 42905); (42906, 42907); (42908, 42909);
   (42910, 42911); (42912, 42913); (42914, 42915); (42916, 42917);
   (42918, 42919); (42920, 42921); (42922, 614); (42923, 604); (42924, 609);
   (42925, 620); (42926, 618); (42928, 670); (42929, 647); (42930, 669);
   (42931, 43859); (42932, 42933); (42934, 42935); (42936, 42937);
   (42938, 42939); (42940, 42941); (42942, 42943); (42944, 42945);
   (42946, 42947); (42948, 42900); (42949, 642); (42950, 7566);
   (42951, 42952); (42953, 42954); (42960, 42961); (42966, 42967);
   (42968, 42969); (42997, 42998); (65313, 65345); (65314, 65346);
   (65315, 65347); (65316, 65348); (65317, 65349); (65318, 65350);
   (65319, 65351); (65320, 65352); (65321, 65353); (65322, 65354);
   (65323, 65355); (65324, 65356); (65325, 65357); (65326, 65358);
   (65327, 65359); (65328, 65360); (65329, 65361); (65330, 65362);
   (65331, 65363); (65332, 65364); (65333, 65365); (65334, 65366);
   (65335, 65367); (65336, 65368); (65337, 65369); (65338, 65370);
   (66560, 66600); (66561, 66601); (66562, 66602); (66563, 66603);
   (66564, 66604); (66565, 66605); (66566, 66606); (66567, 66607);
   (66568, 66608); (66569, 66609); (66570, 66610); (66571, 66611);
   (66572, 66612); (66573, 66613); (66574, 66614); (66575, 66615);
   (66576, 66616); (66577, 66617); (66578, 66618); (66579, 66619);
   (66580, 66620); (66581, 66621); (66582, 66622); (66583, 66623);
   (66584, 66624); (66585, 66625); (66586, 66626); (66587, 66627);
   (66588, 66628); (66589, 66629); (66590, 66630); (66591, 66631);
   (66592, 66632); (66593, 66633); (66594, 66634); (66595, 66635);
   (66596, 66636); (66597, 66637); (66598, 66638); (66599, 66639);
   (66736, 66776); (66737, 66777); (66738, 66778); (66739, 66779);
   (66740, 66780); (66741, 66781); (66742, 66782); (66743, 66783);
   (66744, 66784); (66745, 66785); (66746, 66786); (66747, 66787);
   (66748, 66788); (66749, 66789); (66750, 66790); (66751, 66791);
   (66752, 66792); (66753, 66793); (66754, 66794); (66755, 66795);
   (66756, 66796); (66757, 66797); (66758, 66798); (66759, 66799);
   (66760, 66800); (66761, 66801); (66762, 66802); (66763, 66803);
   (66764, 66804); (66765, 66805); (66766, 66806); (66767, 66807);
   (66768, 66808); (66769, 66809); (66770, 66810); (66771, 66811);
   (66928, 66967); (66929, 66968); (66930, 66969); (66931, 66970);
   (66932, 66971); (66933, 66972); (66934, 66973); (66935, 66974);
   (66936, 66975); (66937, 66976); (66938, 66977); (66940, 66979);
   (66941, 66980); (66942, 66981); (66943, 66982); (66944, 66983);
   (66945, 66984); (66946, 66985); (66947, 66986); (66948, 66987);
   (66949, 66988); (66950, 66989); (66951, 66990); (66952, 66991);
   (66953, 66992); (66954, 66993); (66956, 66995); (66957, 66996);
   (66958, 66997); (66959, 66998); (66960, 66999); (66961, 67000);
   (66962, 67001); (66964, 67003); (66965, 67004); (68736, 68800);
   (68737, 68801); (68738, 68802); (68739, 68803); (68740, 68804);
   (68741, 68805); (68742, 68806); (68743, 68807); (68744, 68808);
   (68745, 68809); (68746, 68810); (68747, 68811); (68748, 68812);
   (68749, 68813); (68750, 68814); (68751, 68815); (68752, 68816);
   (68753, 68817); (68754, 68818); (68755, 68819); (68756, 68820);
   (68757, 68821); (68758, 68822); (68759, 68823); (68760, 68824);
   (68761, 68825); (68762, 68826); (68763, 68827); (68764, 68828);
   (68765, 68829); (68766, 68830); (68767, 68831); (68768, 68832);
   (68769, 68833); (68770, 68834); (68771, 68835); (68772, 68836);
   (68773, 68837); (68774, 68838); (68775, 68839); (68776, 68840);
   (68777, 68841); (68778, 68842); (68779, 68843); (68780, 68844);
   (68781, 68845); (68782, 68846); (68783, 68847); (68784, 68848);
   (68785, 68849); (68786, 68850); (71840, 71872); (71841, 71873);
   (71842, 71874); (71843, 71875); (71844, 71876); (71845, 71877);
   (71846, 71878); (71847, 71879); (71848, 71880); (71849, 71881);
   (71850, 71882); (71851, 71883); (71852, 71884); (71853, 71885);
   (71854, 71886); (71855, 71887); (71856, 71888); (71857, 71889);
   (71858, 71890); (71859, 71891); (71860, 71892); (71861, 71893);
   (71862, 71894); (71863, 71895); (71864, 71896); (71865, 71897);
   (71866, 71898); (71867, 71899); (71868, 71900); (71869, 71901);
   (71870, 71902); (71871, 71903); (93760, 93792); (93761, 93793);
   (93762, 93794); (93763, 93795); (93764, 93796); (93765, 93797);
   (93766, 93798); (93767, 93799); (93768, 93800); (93769, 93801);
   (93770, 93802); (93771, 93803); (93772, 93804); (93773, 93805);
   (93774, 93806); (93775, 93807); (93776, 93808); (93777, 93809);
   (93778, 93810); (93779, 93811); (93780, 93812); (93781, 93813);
   (93782, 93814); (93783, 93815); (93784, 93816); (93785, 93817);
   (93786, 93818); (93787, 93819); (93788, 93820); (93789, 93821);
   (93790, 93822); (93791, 93823); (125184, 125218); (125185, 125219);
   (125186, 125220); (125187, 125221); (125188, 125222); (125189, 125223);
   (125190, 125224); (125191, 125225); (125192, 125226); (125193, 125227);
   (125194, 125228); (125195, 125229); (125196, 125230); (125197, 125231);
   (125198, 125232); (125199, 125233); (125200, 125234); (125201, 125235);
   (125202, 125236); (125203, 125237); (125204, 125238); (125205, 125239);
   (125206, 125240); (125207, 125241); (125208, 125242); (125209, 125243);
   (125210, 125244); (125211, 125245); (125212, 125246); (125213, 125247);
   (125214, 125248); (125215, 125249); (125216, 125250); (125217, 125251)
  ]%N.

(** The code points with the property Uppercase, as ranges. *)
Definition uppercase_ranges : list (N * N) :=
  [
   (65, 90); (192, 214); (216, 222); (256, 256); (258, 258); (260, 260);
   (262, 262); (264, 264); (266, 266); (268, 268); (270, 270); (272, 272);
   (274, 274); (276, 276); (278, 278); (280, 280); (282, 282); (284, 284);
   (286, 286); (288, 288); (290, 290); (292, 292); (294, 294); (296, 296);
   (298, 298); (300, 300); (302, 302); (304, 304); (306, 306); (308, 308);
   (310, 310); (313, 313); (315, 315); (317, 317); (319, 319); (321, 321);
   (323, 323); (325, 325); (327, 327); (330, 330); (332, 332); (334, 334);
   (336, 336); (338, 338); (340, 340); (342, 342); (344, 344); (346, 346);
   (348, 348); (350, 350); (352, 352); (354, 354); (356, 356); (358, 358);
   (360, 360); (362, 362); (364, 364); (366, 366); (368, 368); (370, 370);
   (372, 372); (374, 374); (376, 377); (379, 379); (381, 381); (385, 386);
   (388, 388); (390, 391); (393, 395); (398, 401); (403, 404); (406, 408);
   (412, 413); (415, 416); (418, 418); (420, 420); (422, 423); (425, 425);
   (428, 428); (430, 431); (433, 435); (437, 437); (439, 440); (444, 444);
   (452, 452); (455, 455); (458, 458); (461, 461); (463, 463); (465, 465);
   (467, 467); (469, 469); (471, 471); (473, 473); (475, 475); (478, 478);
   (480, 480); (482, 482); (484, 484); (486, 486); (488, 488); (490, 490);
   (492, 492); (494, 494); (497, 497); (500, 500); (502, 504); (506, 506);
   (508, 508); (510, 510); (512, 512); (514, 514); (516, 516); (518, 518);
   (520, 520); (522, 522); (524, 524); (526, 526); (528, 528); (530, 530);
   (532, 532); (534, 534); (536, 536); (538, 538); (540, 540); (542, 542);
   (544, 544); (546, 546); (548, 548); (550, 550); (552, 552); (554, 554);
   (556, 556); (558, 558); (560, 560); (562, 562); (570, 571); (573, 574);
   (577, 577); (579, 582); (584, 584); (586, 586); (588, 588); (590, 590);
   (880, 880); (882, 882); (886, 886); (895, 895); (902, 902); (904, 906);
   (908, 908); (910, 911); (913, 929); (931, 939); (975, 975); (978, 980);
   (984, 984); (986, 986); (988, 988); (990, 990); (992, 992); (994, 994);
   (996, 996); (998, 998); (1000, 1000); (1002, 1002); (1004, 1004);
   (1006, 1006); (1012, 1012); (1015, 1015); (1017, 1018); (1021, 1071);
   (1120, 1120); (1122, 1122); (1124, 1124); (1126, 1126); (1128, 1128);
   (1130, 1130); (1132, 1132); (1134, 1134); (1136, 1136); (1138, 1138);
   (1140, 1140); (1142, 1142); (1144, 1144); (1146, 1146); (1148, 1148);
   (1150, 1150); (1152, 1152); (1162, 1162); (1164, 1164); (1166, 1166);
   (1168, 1168); (1170, 1170); (1172, 1172); (1174, 1174); (1176, 1176);
   (1178, 1178); (1180, 1180); (1182, 1182); (1184, 1184); (1186, 1186);
   (1188, 1188); (1190, 1190); (1192, 1192); (1194, 1194); (1196, 1196);
   (1198, 1198); (1200, 1200); (1202, 1202); (1204, 1204); (1206, 1206);
   (1208, 1208); (1210, 1210); (1212, 1212); (1214, 1214); (1216, 1217);
   (1219, 1219); (1221, 1221); (1223, 1223); (1225, 1225); (1227, 1227);
   (1229, 1229); (1232, 1232); (1234, 1234); (1236, 1236); (1238, 1238);
   (1240, 1240); (1242, 1242); (1244, 1244); (1246, 1246); (1248, 1248);
   (1250, 1250); (1252, 1252); (1254, 1254); (1256, 1256); (1258, 1258);
   (1260, 1260); (1262, 1262); (1264, 1264); (1266, 1266); (1268, 1268);
   (1270, 1270); (1272, 1272); (1274, 1274); (1276, 1276); (1278, 1278);
   (1280, 1280); (1282, 1282); (1284, 1284); (1286, 1286); (1288, 1288);
   (1290, 1290); (1292, 1292); (1294, 1294); (1296, 1296); (1298, 1298);
   (1300, 1300); (1302, 1302); (1304, 1304); (1306, 1306); (1308, 1308);
   (1310, 1310); (1312, 1312); (1314, 1314); (1316, 1316); (1318, 1318);
   (1320, 1320); (1322, 1322); (1324, 1324); (1326, 1326); (1329, 1366);
   (4256, 4293); (4295, 4295); (4301, 4301); (5024, 5109); (7312, 7354);
   (7357, 7359); (7680, 7680); (7682, 7682); (7684, 7684); (7686, 7686);
   (7688, 7688); (7690, 7690); (7692, 7692); (7694, 7694); (7696, 7696);
   (7698, 7698); (7700, 7700); (7702, 7702); (7704, 7704); (7706, 7706);
   (7708, 7708); (7710, 7710); (7712, 7712); (7714, 7714); (7716, 7716);
   (7718, 7718); (7720, 7720); (7722, 7722); (7724, 7724); (7726, 7726);
   (7728, 7728); (7730, 7730); (7732, 7732); (7734, 7734); (7736, 7736);
   (7738, 7738); (7740, 7740); (7742, 7742); (7744, 7744); (7746, 7746);
   (7748, 7748); (7750, 7750); (7752, 7752); (7754, 7754); (7756, 7756);
   (7758, 7758); (7760, 7760); (7762, 7762); (7764, 7764); (7766, 7766);
   (7768, 7768); (7770, 7770); (7772, 7772); (7774, 7774); (7776, 7776);
   (7778, 7778); (7780, 7780); (7782, 7782); (7784, 7784); (7786, 7786);
   (7788, 7788); (7790, 7790); (7792, 7792); (7794, 7794); (7796, 7796);
   (7798, 7798); (7800, 7800); (7802, 7802); (7804, 7804); (7806, 7806);
   (7808, 7808); (7810, 7810); (7812, 7812); (7814, 7814); (7816, 7816);
   (7818, 7818); (7820, 7820); (7822, 7822); (7824, 7824); (7826, 7826);
   (7828, 7828); (7838, 7838); (7840, 7840); (7842, 7842); (7844, 7844);
   (7846, 7846); (7848, 7848); (7850, 7850); (7852, 7852); (7854, 7854);
   (7856, 7856); (7858, 7858); (7860, 7860); (7862, 7862); (7864, 7864);
   (7866, 7866); (7868, 7868); (7870, 7870); (7872, 7872); (7874, 7874);
   (7876, 7876); (7878, 7878); (7880, 7880); (7882, 7882); (7884, 7884);
   (7886, 7886); (7888, 7888); (7890, 7890); (7892, 7892); (7894, 7894);
   (7896, 7896); (7898, 7898); (7900, 7900); (7902, 7902); (7904, 7904);
   (7906, 7906); (7908, 7908); (7910, 7910); (7912, 7912); (7914, 7914);
   (7916, 7916); (7918, 7918); (7920, 7920); (7922, 7922); (7924, 7924);
   (7926, 7926); (7928, 7928); (7930, 7930); (7932, 7932); (7934, 7934);
   (7944, 7951); (7960, 7965); (7976, 7983); (7992, 7999); (8008, 8013);
   (8025, 8025); (8027, 8027); (8029, 8029); (8031, 8031); (8040, 8047);
   (8120, 8123); (8136, 8139); (8152, 8155); (8168, 8172); (8184, 8187);
   (8450, 8450); (8455, 8455); (8459, 8461); (8464, 8466); (8469, 8469);
   (8473, 8477); (8484, 8484); (8486, 8486); (8488, 8488); (8490, 8493);
   (8496, 8499); (8510, 8511); (8517, 8517); (8544, 8559); (8579, 8579);
   (9398, 9423); (11264, 11311); (11360, 11360); (11362, 11364);
   (11367, 11367); (11369, 11369); (11371, 11371); (11373, 11376);
   (11378, 11378); (11381, 11381); (11390, 11392); (11394, 11394);
   (11396, 11396); (11398, 11398); (11400, 11400); (11402, 11402);
   (11404, 11404); (11406, 11406); (11408, 11408); (11410, 11410);
   (11412, 11412); (11414, 11414); (11416, 11416); (11418, 11418);
   (11420, 11420); (11422, 11422); (11424, 11424); (11426, 11426);
   (11428, 11428); (11430, 11430); (11432, 11432); (11434, 11434);
   (11436, 11436); (11438, 11438); (11440, 11440); (11442, 11442);
   (11444, 11444); (11446, 11446); (11448, 11448); (11450, 11450);
   (11452, 11452); (11454, 11454); (11456, 11456); (11458, 11458);
   (11460, 11460); (11462, 11462); (11464, 11464); (11466, 11466);
   (11468, 11468); (11470, 11470); (11472, 11472); (11474, 11474);
   (11476, 11476); (11478, 11478); (11480, 11480); (11482, 11482);
   (11484, 11484); (11486, 11486); (11488, 11488); (11490, 11490);
   (11499, 11499); (11501, 11501); (11506, 11506); (42560, 42560);
   (42562, 42562); (42564, 42564); (42566, 42566); (42568, 42568);
   (42570, 42570); (42572, 42572); (42574, 42574); (42576, 42576);
   (42578, 42578); (42580, 42580); (42582, 42582); (42584, 42584);
   (42586, 42586); (42588, 42588); (42590, 42590); (42592, 42592);
   (42594, 42594); (42596, 42596); (42598, 42598); (42600, 42600);
   (42602, 42602); (42604, 42604); (42624, 42624); (42626, 42626);
   (42628, 42628); (42630, 42630); (42632, 42632); (42634, 42634);
   (42636, 42636); (42638, 42638); (42640, 42640); (42642, 42642);
   (42644, 42644); (42646, 42646); (42648, 42648); (42650, 42650);
   (42786, 42786); (42788, 42788); (42790, 42790); (42792, 42792);
   (42794, 42794); (42796, 42796); (42798, 42798); (42802, 42802);
   (42804, 42804); (42806, 42806); (42808, 42808); (42810, 42810);
   (42812, 42812); (42814, 42814); (42816, 42816); (42818, 42818);
   (42820, 42820); (42822, 42822); (42824, 42824); (42826, 42826);
   (42828, 42828); (42830, 42830); (42832, 42832); (42834, 42834);
   (42836, 42836); (42838, 42838); (42840, 42840); (42842, 42842);
   (42844, 42844); (42846, 42846); (42848, 42848); (42850, 42850);
   (42852, 42852); (42854, 42854); (42856, 42856); (42858, 42858);
   (42860, 42860); (42862, 42862); (42873, 42873); (42875, 42875);
   (42877, 42878); (42880, 42880); (42882, 42882); (42884, 42884);
   (42886, 42886); (42891, 42891); (42893, 42893); (42896, 42896);
   (42898, 42898); (42902, 42902); (42904, 42904); (42906, 42906);
   (42908, 42908); (42910, 42910); (42912, 42912); (42914, 42914);
   (42916, 42916); (42918, 42918); (42920, 42920); (42922, 42926);
   (42928, 42932); (42934, 42934); (42936, 42936); (42938, 42938);
   (42940, 42940); (42942, 42942); (42944, 42944); (42946, 42946);
   (42948, 42951); (42953, 42953); (42960, 42960); (42966, 42966);
   (42968, 42968); (42997, 42997); (65313, 65338); (66560, 66599);
   (66736, 66771); (66928, 66938); (66940, 66954); (66956, 66962);
   (66964, 66965); (68736, 68786); (71840, 71871); (93760, 93791);
   (119808, 119833); (119860, 119885); (119912, 119937); (119964, 119964);
   (119966, 119967); (119970, 119970); (119973, 119974); (119977, 119980);
   (119982, 119989); (120016, 120041); (120068, 120069); (120071, 120074);
   (120077, 120084); (120086, 120092); (120120, 120121); (120123, 120126);
   (120128, 120132); (120134, 120134); (120138, 120144); (120172, 120197);
   (120224, 120249); (120276, 120301); (120328, 120353); (120380, 120405);
   (120432, 120457); (120488, 120512); (120546, 120570); (120604, 120628);
   (120662, 120686); (120720, 120744); (120778, 120778); (125184, 125217);
   (127280, 127305); (127312, 127337); (127344, 127369)
  ]%N.

(** The code points with the property Cased, as ranges. *)
Definition cased_ranges : list (N * N) :=
  [
   (65, 90); (97, 122); (170, 170); (181, 181); (186, 186); (192, 214);
   (216, 246); (248, 442); (444, 447); (452, 659); (661, 696); (704, 705);
   (736, 740); (837, 837); (880, 883); (886, 887); (890, 893); (895, 895);
   (902, 902); (904, 906); (908, 908); (910, 929); (931, 1013); (1015, 1153);
   (1162, 1327); (1329, 1366); (1376, 1416); (4256, 4293); (4295, 4295);
   (4301, 4301); (4304, 4346); (4349, 4351); (5024, 5109); (5112, 5117);
   (7296, 7304); (7312, 7354); (7357, 7359); (7424, 7615); (7680, 7957);
   (7960, 7965); (7968, 8005); (8008, 8013); (8016, 8023); (8025, 8025);
   (8027, 8027); (8029, 8029); (8031, 8061); (8064, 8116); (8118, 8124);
   (8126, 8126); (8130, 8132); (8134, 8140); (8144, 8147); (8150, 8155);
   (8160, 8172); (8178, 8180); (8182, 8188); (8305, 8305); (8319, 8319);
   (8336, 8348); (8450, 8450); (8455, 8455); (8458, 8467); (8469, 8469);
   (8473, 8477); (8484, 8484); (8486, 8486); (8488, 8488); (8490, 8493);
   (8495, 8500); (8505, 8505); (8508, 8511); (8517, 8521); (8526, 8526);
   (8544, 8575); (8579, 8580); (9398, 9449); (11264, 11492); (11499, 11502);
   (11506, 11507); (11520, 11557); (11559, 11559); (11565, 11565);
   (42560, 42605); (42624, 42653); (42786, 42887); (42891, 42894);
   (42896, 42954); (42960, 42961); (42963, 42963); (42965, 42969);
   (42997, 42998); (43000, 43002); (43824, 43866); (43868, 43880);
   (43888, 43967); (64256, 64262); (64275, 64279); (65313, 65338);
   (65345, 65370); (66560, 66639); (66736, 66771); (66776, 66811);
   (66928, 66938); (66940, 66954); (66956, 66962); (66964, 66965);
   (66967, 66977); (66979, 66993); (66995, 67001); (67003, 67004);
   (67456, 67456); (67459, 67461); (67463, 67504); (67506, 67514);
   (68736, 68786); (68800, 68850); (71840, 71903); (93760, 93823);
   (119808, 119892); (119894, 119964); (119966, 119967); (119970, 119970);
   (119973, 119974); (119977, 119980); (119982, 119993); (119995, 119995);
   (119997, 120003); (120005, 120069); (120071, 120074); (120077, 120084);
   (120086, 120092); (120094, 120121); (120123, 120126); (120128, 120132);
   (120134, 120134); (120138, 120144); (120146, 120485); (120488, 120512);
   (120514, 120538); (120540, 120570); (120572, 120596); (120598, 120628);
   (120630, 120654); (120656, 120686); (120688, 120712); (120714, 120744);
   (120746, 120770); (120772, 120779); (122624, 122633); (122635, 122654);
   (125184, 125251); (127280, 127305); (127312, 127337); (127344, 127369)
  ]%N.

(** The code points with the property Case_Ignorable, as ranges. *)
Definition case_ignorable_ranges : list (N * N) :=
  [
   (39, 39); (46, 46); (58, 58); (94, 94); (96, 96); (168, 168); (173, 173);
   (175, 175); (180, 180); (183, 184); (688, 879); (884, 885); (890, 890);
   (900, 901); (903, 903); (1155, 1161); (1369, 1369); (1375, 1375);
   (1425, 1469); (1471, 1471); (1473, 1474); (1476, 1477); (1479, 1479);
   (1524, 1524); (1536, 1541); (1552, 1562); (1564, 1564); (1600, 1600);
   (1611, 1631); (1648, 1648); (1750, 1757); (1759, 1768); (1770, 1773);
   (1807, 1807); (1809, 1809); (1840, 1866); (1958, 1968); (2027, 2037);
   (2042, 2042); (2045, 2045); (2070, 2093); (2137, 2139); (2184, 2184);
   (2192, 2193); (2200, 2207); (2249, 2306); (2362, 2362); (2364, 2364);
   (2369, 2376); (2381, 2381); (2385, 2391); (2402, 2403); (2417, 2417);
   (2433, 2433); (2492, 2492); (2497, 2500); (2509, 2509); (2530, 2531);
   (2558, 2558); (2561, 2562); (2620, 2620); (2625, 2626); (2631, 2632);
   (2635, 2637); (2641, 2641); (2672, 2673); (2677, 2677); (2689, 2690);
   (2748, 2748); (2753, 2757); (2759, 2760); (2765, 2765); (2786, 2787);
   (2810, 2815); (2817, 2817); (2876, 2876); (2879, 2879); (2881, 2884);
   (2893, 2893); (2901, 2902); (2914, 2915); (2946, 2946); (3008, 3008);
   (3021, 3021); (3072, 3072); (3076, 3076); (3132, 3132); (3134, 3136);
   (3142, 3144); (3146, 3149); (3157, 3158); (3170, 3171); (3201, 3201);
   (3260, 3260); (3263, 3263); (3270, 3270); (3276, 3277); (3298, 3299);
   (3328, 3329); (3387, 3388); (3393, 3396); (3405, 3405); (3426, 3427);
   (3457, 3457); (3530, 3530); (3538, 3540); (3542, 3542); (3633, 3633);
   (3636, 3642); (3654, 3662); (3761, 3761); (3764, 3772); (3782, 3782);
   (3784, 3789); (3864, 3865); (3893, 3893); (3895, 3895); (3897, 3897);
   (3953, 3966); (3968, 3972); (3974, 3975); (3981, 3991); (3993, 4028);
   (4038, 4038); (4141, 4144); (4146, 4151); (4153, 4154); (4157, 4158);
   (4184, 4185); (4190, 4192); (4209, 4212); (4226, 4226); (4229, 4230);
   (4237, 4237); (4253, 4253); (4348, 4348); (4957, 4959); (5906, 5908);
   (5938, 5939); (5970, 5971); (6002, 6003); (6068, 6069); (6071, 6077);
   (6086, 6086); (6089, 6099); (6103, 6103); (6109, 6109); (6155, 6159);
   (6211, 6211); (6277, 6278); (6313, 6313); (6432, 6434); (6439, 6440);
   (6450, 6450); (6457, 6459); (6679, 6680); (6683, 6683); (6742, 6742);
   (6744, 6750); (6752, 6752); (6754, 6754); (6757, 6764); (6771, 6780);
   (6783, 6783); (6823, 6823); (6832, 6862); (6912, 6915); (6964, 6964);
   (6966, 6970); (6972, 6972); (6978, 6978); (7019, 7027); (7040, 7041);
   (7074, 7077); (7080, 7081); (7083, 7085); (7142, 7142); (7144, 7145);
   (7149, 7149); (7151, 7153); (7212, 7219); (7222, 7223); (7288, 7293);
   (7376, 7378); (7380, 7392); (7394, 7400); (7405, 7405); (7412, 7412);
   (7416, 7417); (7468, 7530); (7544, 7544); (7579, 7679); (8125, 8125);
   (8127, 8129); (8141, 8143); (8157, 8159); (8173, 8175); (8189, 8190);
   (8203, 8207); (8216, 8217); (8228, 8228); (8231, 8231); (8234, 8238);
   (8288, 8292); (8294, 8303); (8305, 8305); (8319, 8319); (8336, 8348);
   (8400, 8432); (11388, 11389); (11503, 11505); (11631, 11631);
   (11647, 11647); (11744, 11775); (11823, 11823); (12293, 12293);
   (12330, 12333); (12337, 12341); (12347, 12347); (12441, 12446);
   (12540, 12542); (40981, 40981); (42232, 42237); (42508, 42508);
   (42607, 42610); (42612, 42621); (42623, 42623); (42652, 42655);
   (42736, 42737); (42752, 42785); (42864, 42864); (42888, 42890);
   (42994, 42996); (43000, 43001); (43010, 43010); (43014, 43014);
   (43019, 43019); (43045, 43046); (43052, 43052); (43204, 43205);
   (43232, 43249); (43263, 43263); (43302, 43309); (43335, 43345);
   (43392, 43394); (43443, 43443); (43446, 43449); (43452, 43453);
   (43471, 43471); (43493, 43494); (43561, 43566); (43569, 43570);
   (43573, 43574); (43587, 43587); (43596, 43596); (43632, 43632);
   (43644, 43644); (43696, 43696); (43698, 43700); (43703, 43704);
   (43710, 43711); (43713, 43713); (43741, 43741); (43756, 43757);
   (43763, 43764); (43766, 43766); (43867, 43871); (43881, 43883);
   (44005, 44005); (44008, 44008); (44013, 44013); (64286, 64286);
   (64434, 64450); (65024, 65039); (65043, 65043); (65056, 65071);
   (65106, 65106); (65109, 65109); (65279, 65279); (65287, 65287);
   (65294, 65294); (65306, 65306); (65342, 65342); (65344, 65344);
   (65392, 65392); (65438, 65439); (65507, 65507); (65529, 65531);
   (66045, 66045); (66272, 66272); (66422, 66426); (67456, 67461);
   (67463, 67504); (67506, 67514); (68097, 68099); (68101, 68102);
   (68108, 68111); (68152, 68154); (68159, 68159); (68325, 68326);
   (68900, 68903); (69291, 69292); (69446, 69456); (69506, 69509);
   (69633, 69633); (69688, 69702); (69744, 69744); (69747, 69748);
   (69759, 69761); (69811, 69814); (69817, 69818); (69821, 69821);
   (69826, 69826); (69837, 69837); (69888, 69890); (69927, 69931);
   (69933, 69940); (70003, 70003); (70016, 70017); (70070, 70078);
   (70089, 70092); (70095, 70095); (70191, 70193); (70196, 70196);
   (70198, 70199); (70206, 70206); (70367, 70367); (70371, 70378);
   (70400, 70401); (70459, 70460); (70464, 70464); (70502, 70508);
   (70512, 70516); (70712, 70719); (70722, 70724); (70726, 70726);
   (70750, 70750); (70835, 70840); (70842, 70842); (70847, 70848);
   (70850, 70851); (71090, 71093); (71100, 71101); (71103, 71104);
   (71132, 71133); (71219, 71226); (71229, 71229); (71231, 71232);
   (71339, 71339); (71341, 71341); (71344, 71349); (71351, 71351);
   (71453, 71455); (71458, 71461); (71463, 71467); (71727, 71735);
   (71737, 71738); (71995, 71996); (71998, 71998); (72003, 72003);
   (72148, 72151); (72154, 72155); (72160, 72160); (72193, 72202);
   (72243, 72248); (72251, 72254); (72263, 72263); (72273, 72278);
   (72281, 72283); (72330, 72342); (72344, 72345); (72752, 72758);
   (72760, 72765); (72767, 72767); (72850, 72871); (72874, 72880);
   (72882, 72883); (72885, 72886); (73009, 73014); (73018, 73018);
   (73020, 73021); (73023, 73029); (73031, 73031); (73104, 73105);
   (73109, 73109); (73111, 73111); (73459, 73460); (78896, 78904);
   (92912, 92916); (92976, 92982); (92992, 92995); (94031, 94031);
   (94095, 94111); (94176, 94177); (94179, 94180); (110576, 110579);
   (110581, 110587); (110589, 110590); (113821, 113822); (113824, 113827);
   (118528, 118573); (118576, 118598); (119143, 119145); (119155, 119170);
   (119173, 119179); (119210, 119213); (119362, 119364); (121344, 121398);
   (121403, 121452); (121461, 121461); (121476, 121476); (121499, 121503);
   (121505, 121519); (122880, 122886); (122888, 122904); (122907, 122913);
   (122915, 122916); (122918, 122922); (123184, 123197); (123566, 123566);
   (123628, 123631); (125136, 125142); (125252, 125259); (127995, 127999);
   (917505, 917505); (917536, 917631); (917760, 917999)
  ]%N.

Fixpoint assoc (c : N) (table : list (N * N)) : option N :=
  match table with
  | [] => None
  | (k, v) :: rest => if (k =? c)%N then Some v else assoc c rest
  end.

Definition in_ranges (c : N) (ranges : list (N * N)) : bool :=
  existsb (fun r => ((fst r <=? c) && (c <=? snd r))%N) ranges.

Definition is_uppercase (c : N) : bool := in_ranges c uppercase_ranges.
Definition is_cased (c : N) : bool := in_ranges c cased_ranges.
Definition is_case_ignorable (c : N) : bool :=
  in_ranges c case_ignorable_ranges.

(** The capital sigma, whose lowercase depends on where it stands. *)
Definition capital_sigma : N := 931.

(** The full lowercase mapping of a code point other than the capital
    sigma: one code point, or two for the capital I with dot above. *)
Definition to_lower_full (c : N) : list N :=
  if (c =? 304)%N then [105; 775]%N
  else match assoc c lower_table with
       | Some l => [l]
       | None => [c]
       end.

End Unicode.

(** ** Python primitives *)

Module Py.

(** Exceptions the modelled code can raise. *)
Inductive exn : Type :=
| ValueError
| TypeError.

(** A computation that returns or raises. *)
Inductive result (A : Type) : Type :=
| Ok (a : A)
| Raise (e : exn).
Arguments Ok {A} a.
Arguments Raise {A} e.

Definition bind {A B : Type} (k : A -> result B) (r : result A) : result B :=
  match r with
  | Ok a => k a
  | Raise e => Raise e
  end.

Definition raises {A : Type} (r : result A) : bool :=
  match r with
  | Ok _ => false
  | Raise _ => true
  end.

(** Number of elements of [range(lo, hi, step)] for a positive [step], as
    CPython computes it. *)
Definition range_length (lo hi step : Z) : Z :=
  if lo <? hi then (hi - lo - 1) / step + 1 else 0.

(** [range(start, stop, step)], forced to a list. A zero step raises. *)
Definition range (start stop step : Z) : result (list Z) :=
  if step =? 0 then Raise ValueError
  else
    let n := if 0 <? step then range_length start stop step
             else range_length stop start (- step) in
    Ok (map (fun i : nat => start + Z.of_nat i * step) (seq 0 (Z.to_nat n))).

(** A slice bound adjusted to a sequence of length [len]: a negative bound
    counts from the end, and every bound is clipped to [0, len]. *)
Definition adjust_index (len i : Z) : Z :=
  if i <? 0 then Z.max 0 (i + len) else Z.min i len.

(** [l[i:j]] *)
Definition slice {A : Type} (l : list A) (i j : Z) : list A :=
  let len := Z.of_nat (length l) in
  let a := adjust_index len i in
  let b := adjust_index len j in
  take (Z.to_nat (b - a)) (drop (Z.to_nat a) l).

(** [[f x for x in l if p x]] *)
Fixpoint comprehension {A B : Type} (f : A -> B) (p : A -> bool) (l : list A)
  : list B :=
  match l with
  | [] => []
  | x :: rest =>
      if p x then f x :: comprehension f p rest else comprehension f p rest
  end.

(** A [for] loop that appends [f x] to an accumulator for each [x]. *)
Definition append_each {A B : Type} (f : A -> B) (l : list A) (acc : list B)
  : list B :=
  fold_left (fun acc x => acc ++ [f x]) l acc.

(** The ASCII letters and digits, as bytes. *)
Definition is_upper (c : ascii) : bool :=
  let n := N_of_ascii c in ((65 <=? n) && (n <=? 90))%N.

Definition is_lower (c : ascii) : bool :=
  let n := N_of_ascii c in ((97 <=? n) && (n <=? 122))%N.

Definition is_digit (c : ascii) : bool :=
  let n := N_of_ascii c in ((48 <=? n) && (n <=? 57))%N.

(** A continuation byte of a UTF-8 sequence. *)
Definition continuation (b : N) : bool := ((128 <=? b) && (b <=? 191))%N.

(** A byte that is part of no well-formed UTF-8 sequence stands for itself,
    as a number beyond the code points. *)
Definition raw_byte (b : N) : N := (1114112 + b)%N.

(** The code points of a [str], from the bytes of its encoding. *)
Fixpoint decode (s : string) : list N :=
  match s with
  | EmptyString => []
  | String c0 s0 =>
      let b0 := N_of_ascii c0 in
      if (b0 <? 128)%N then b0 :: decode s0
      else
        match s0 with
        | EmptyString => raw_byte b0 :: decode s0
        | String c1 s1 =>
            let b1 := N_of_ascii c1 in
            if ((194 <=? b0) && (b0 <=? 223))%N && continuation b1
            then ((b0 - 192) * 64 + (b1 - 128))%N :: decode s1
            else
              match s1 with
              | EmptyString => raw_byte b0 :: decode s0
              | String c2 s2 =>
                  let b2 := N_of_ascii c2 in
                  let cp3 :=
                    ((b0 - 224) * 4096 + (b1 - 128) * 64 + (b2 - 128))%N in
                  if ((224 <=? b0) && (b0 <=? 239))%N
                     && continuation b1 && continuation b2
                     && (2048 <=? cp3)%N
                     && negb ((55296 <=? cp3) && (cp3 <=? 57343))%N
                  then cp3 :: decode s2
                  else
                    match s2 with
                    | EmptyString => raw_byte b0 :: decode s0
                    | String c3 s3 =>
                        let b3 := N_of_ascii c3 in
                        let cp4 :=
                          ((b0 - 240) * 262144 + (b1 - 128) * 4096
                           + (b2 - 128) * 64 + (b3 - 128))%N in
                        if ((240 <=? b0) && (b0 <=? 244))%N
                           && continuation b1 && continuation b2
                           && continuation b3
                           && ((65536 <=? cp4) && (cp4 <=? 1114111))%N
                        then cp4 :: decode s3
                        else raw_byte b0 :: decode s0
                    end
              end
        end
  end.

(** The bytes of the encoding of one code point. *)
Definition encode_char (c : N) : string :=
  let byte (n : N) (rest : string) := String (ascii_of_N n) rest in
  if (c <? 128)%N then byte c EmptyString
  else if (c <? 2048)%N then
    byte (192 + c / 64)%N (byte (128 + c mod 64)%N EmptyString)
  else if (c <? 65536)%N then
    byte (224 + c / 4096)%N
      (byte (128 + (c / 64) mod 64)%N (byte (128 + c mod 64)%N EmptyString))
  else if (c <? 1114112)%N then
    byte (240 + c / 262144)%N
      (byte (128 + (c / 4096) mod 64)%N
         (byte (128 + (c / 64) mod 64)%N
            (byte (128 + c mod 64)%N EmptyString)))
  else byte (c - 1114112)%N EmptyString.

(** The [str] of a sequence of code points. *)
Fixpoint encode (l : list N) : string :=
  match l with
  | [] => EmptyString
  | c :: rest => encode_char c +:+ encode rest
  end.

(** The code points that follow the case-ignorable ones at the head of
    [l]. *)
Fixpoint skip_ignorable (l : list N) : list N :=
  match l with
  | [] => []
  | c :: rest => if Unicode.is_case_ignorable c then skip_ignorable rest else l
  end.

(** Whether a capital sigma is final: it follows a cased character and no
    cased character follows it, case-ignorable characters apart. [before]
    holds the code points that precede it, the nearest first. *)
Definition final_sigma (before after : list N) : bool :=
  match skip_ignorable before with
  | [] => false
  | c :: _ =>
      Unicode.is_cased c
      && match skip_ignorable after with
         | [] => true
         | d :: _ => negb (Unicode.is_cased d)
         end
  end.

(** The lowercasing of the code points [l] that follow the code points
    [before] (the nearest first). *)
Fixpoint lower_from (before l : list N) : list N :=
  match l with
  | [] => []
  | c :: after =>
      (if (c =? Unicode.capital_sigma)%N
       then [if final_sigma before after then 962%N else 963%N]
       else Unicode.to_lower_full c)
      ++ lower_from (c :: before) after
  end.

(** [s.lower()] *)
Definition lower (s : string) : string :=
  encode (lower_from [] (decode s)).

(** [s] with each of its characters lowercased on its own. *)
Definition lower_each (s : string) : string :=
  encode (flat_map Unicode.to_lower_full (decode s)).

(** [s.isascii()] *)
Definition is_ascii (s : string) : bool :=
  forallb (fun c => (N_of_ascii c <? 128)%N)
    (list_ascii_of_string s).

(** [sep.join(l)] *)
Fixpoint join (sep : string) (l : list string) : string :=
  match l with
  | [] => EmptyString
  | [x] => x
  | x :: rest => x +:+ sep +:+ join sep rest
  end.

(** The characters of a string. *)
Fixpoint chars (s : string) : list ascii :=
  match s with
  | EmptyString => []
  | String c s' => c :: chars s'
  end.

(** [c in chars], for a character and the characters of a string. *)
Definition char_in (c : ascii) (chars : string) : bool :=
  existsb (Ascii.eqb c) (Py.chars chars).

(** [s.lstrip(chars)] *)
Fixpoint lstrip (chars s : string) : string :=
  match s with
  | EmptyString => EmptyString
  | String c s' => if char_in c chars then lstrip chars s' else s
  end.

(** [s.rstrip(chars)] *)
Fixpoint rstrip (chars s : string) : string :=
  match s with
  | EmptyString => EmptyString
  | String c s' =>
      match rstrip chars s' with
      | EmptyString => if char_in c chars then EmptyString
                       else String c EmptyString
      | r => String c r
      end
  end.

(** [s.strip(chars)] *)
Definition strip (chars s : string) : string :=
  lstrip chars (rstrip chars s).

(** The line feed. *)
Definition newline : ascii := "010"%char.

(** [for line in f], for a file opened in text mode whose decoded contents
    (line ends already translated to line feeds) are [s]: the lines, each
    with the line feed that ends it; a last line without one is a line
    too. *)
Fixpoint readlines (s : string) : list string :=
  match s with
  | EmptyString => []
  | String c s' =>
      if Ascii.eqb c newline then String c EmptyString :: readlines s'
      else match readlines s' with
           | [] => [String c EmptyString]
           | line :: rest => String c line :: rest
           end
  end.

(** The carriage return. *)
Definition carriage_return : ascii := "013"%char.

(** What text mode makes of the contents of a file: each line end, be it a
    carriage return followed by a line feed, a carriage return alone or a
    line feed, is a line feed. *)
Fixpoint universal_newlines (data : string) : string :=
  match data with
  | EmptyString => EmptyString
  | String c rest =>
      if Ascii.eqb c carriage_return
      then match rest with
           | String d rest' =>
               if Ascii.eqb d newline
               then String newline (universal_newlines rest')
               else String newline (universal_newlines rest)
           | EmptyString => String newline EmptyString
           end
      else String c (universal_newlines rest)
  end.

(** [x in l], for a list of strings. *)
Definition contains (x : string) (l : list string) : bool :=
  existsb (String.eqb x) l.

End Py.

#[global] Instance result_bind : MBind Py.result := @Py.bind.

(** ** Chunking and flattening *)

(** [chunker(iterable, total_length, chunksize)]: the slices
    [iterable[pos : pos + chunksize]] for [pos] in
    [range(0, total_length, chunksize)]. *)
Definition chunker {A : Type} (iterable : list A) (total_length chunksize : Z)
  : Py.result (list (list A)) :=
  positions ← Py.range 0 total_length chunksize;
  Py.Ok (map (fun pos => Py.slice iterable pos (pos + chunksize)) positions).

(** [flatten(list_of_lists)]: [item for sublist in list_of_lists for item in
    sublist]. *)
Fixpoint flatten {A : Type} (list_of_lists : list (list A)) : list A :=
  match list_of_lists with
  | [] => []
  | sublist :: rest => sublist ++ flatten rest
  end.

(** ** The cleaning pattern [[A-Za-z0-9\-]{3,50}] *)

Module Pattern.

(** The character class [[A-Za-z0-9\-]]. *)
Definition in_class (c : ascii) : bool :=
  Py.is_upper c || Py.is_lower c || Py.is_digit c
  || (N_of_ascii c =? 45)%N.

(** The longest prefix of [s] of at most [n] characters of the class, and
    what follows it: the greedy bounded repetition. *)
Fixpoint span (n : nat) (s : string) : string * string :=
  match n, s with
  | S n', String c s' =>
      if in_class c then let '(m, rest) := span n' s' in (String c m, rest)
      else (EmptyString, s)
  | _, _ => (EmptyString, s)
  end.

(** A match of the pattern at the start of [s]: between 3 and 50 characters
    of the class, as many as there are. *)
Definition match_at (s : string) : option (string * string) :=
  let '(m, rest) := span 50 s in
  if (3 <=? String.length m)%nat then Some (m, rest) else None.

Lemma span_length n s :
  String.length (span n s).2
  = (String.length s - String.length (span n s).1)%nat.
Proof.
  revert s; induction n as [|n IH]; intros [|c s]; simpl; try lia.
  destruct (in_class c); simpl; [|lia].
  specialize (IH s). destruct (span n s) as [m r]; simpl in *. lia.
Qed.

Definition inspect {A : Type} (a : A) : {b : A | a = b} := exist _ a eq_refl.

(** [pattern.findall(s)]: scan from the left; where the pattern matches,
    take the match and go on after it; where it does not, go on one
    character further. *)
Equations? findall (s : string) : list string by wf (String.length s) lt :=
  findall EmptyString := [];
  findall (String c s') with inspect (match_at (String c s')) => {
    | exist _ (Some (m, rest)) H := m :: findall rest;
    | exist _ None _ := findall s' }.
Proof.
  - unfold match_at in H. pose proof (span_length 50 (String c s')) as L.
    destruct (span 50 (String c s')) as [m' r']. simpl in L.
    destruct (3 <=? String.length m')%nat eqn:E; [|discriminate].
    apply Nat.leb_le in E. injection H as -> ->. simpl in L |- *. lia.
  - simpl. lia.
Qed.

(** Every character of [s] is of the class. *)
Definition all_in_class (s : string) : bool :=
  forallb in_class (Py.chars s).

(** The pattern matches at no position of [gap], when [gap] is followed by
    [tail]. *)
Definition no_match_in (gap tail : string) : Prop :=
  forall pre c t, gap = pre +:+ String c t ->
    match_at (String c t +:+ tail) = None.

(** [scan s ms]: [ms] are the leftmost, non-overlapping matches of the
    pattern in [s], in their order of occurrence. *)
Inductive scan : string -> list string -> Prop :=
| scan_end (s : string) :
    no_match_in s "" -> scan s []
| scan_match (gap m rest : string) (ms : list string) :
    no_match_in gap (m +:+ rest) ->
    match_at (m +:+ rest) = Some (m, rest) ->
    scan rest ms ->
    scan (gap +:+ m +:+ rest) (m :: ms).

End Pattern.

(** ** The table of articles *)

(** A value of a text column: a text, or the missing value (NaN) that
    [read_csv] puts where the field is empty. (The string methods of pandas
    work on a column that holds texts; a column with missing values only is
    a column of numbers to them.) *)
Inductive cell : Type :=
| NaN
| Str (s : string).

(** A row of the table: the three columns read from the file, and the
    [clean] column once it has been added. *)
Record Row : Type := mkRow {
  date : string;
  headline : string;
  content : cell;
  clean : option cell
}.

Abbreviation DataFrame := (list Row).

(** [.str.findall(pattern).str.join(' ')] on one value of the column: the
    string methods leave a missing value missing. *)
Definition str_findall_join (c : cell) : cell :=
  match c with
  | NaN => NaN
  | Str s => Str (Py.join " " (Pattern.findall s))
  end.

(** [df['clean'] = df['content'].str.findall(pattern).str.join(' ')] *)
Definition assign_clean (df : DataFrame) : DataFrame :=
  map (fun r =>
         {| date := date r; headline := headline r; content := content r;
            clean := Some (str_findall_join (content r)) |})
      df.

(** [cleaner(df)], with the global [limit]. [df.iloc[:limit, :]] is the row
    slice [[0:limit]]. *)
Definition cleaner (limit : Z) (df : DataFrame) : DataFrame :=
  let df := assign_clean df in
  if 0 <? limit then Py.slice df 0 limit else df.

(** ** Lemmatization *)

(** A token as the annotator gives it. *)
Record Token : Type := mkToken {
  text : string;
  lemma_ : string;
  is_alpha : bool
}.

Abbreviation Doc := (list Token).

(** [delayed(function)(arg)]: a task for the executor. *)
Definition delayed {A B : Type} (function : A -> B) (arg : A)
  : (A -> B) * A :=
  (function, arg).

(** [Parallel(n_jobs=...)(tasks)]: the results of the tasks, in the order of
    the tasks, whichever of the [n_jobs] workers ran them. *)
Definition Parallel {A B : Type} (n_jobs : Z) (tasks : list ((A -> B) * A))
  : list B :=
  map (fun task => task.1 task.2) tasks.

Section Pipeline.

(** The globals of the notebook: the loaded model, the stopwords and the
    cleaned table. *)
Variable nlp : string -> Doc.
Variable stopwords : gset string.
Variable df_preproc : DataFrame.

(** [nlp.pipe(texts, batch_size=...)]: the document of each text, in order. *)
Definition nlp_pipe (texts : list string) (batch_size : Z) : list Doc :=
  map nlp texts.

(** [tqdm(iterable, total=...)] iterates as [iterable] does. *)
Definition tqdm {A : Type} (iterable : list A) (total : Z) : list A :=
  iterable.

(** The condition of both comprehensions:
    [tok.is_alpha and tok.text.lower() not in stopwords]. *)
Definition keep (tok : Token) : bool :=
  is_alpha tok && negb (bool_decide (Py.lower (text tok) ∈ stopwords)).

Definition lemmatize (text : string) : list string :=
  let doc := nlp text in
  let lemma_list :=
    Py.comprehension (fun tok => Py.lower (lemma_ tok)) keep doc in
  lemma_list.

Definition lemmatize_pipe (doc : Doc) : list string :=
  let lemma_list :=
    Py.comprehension (fun tok => Py.lower (lemma_ tok)) keep doc in
  lemma_list.

Definition preprocess_pipe (texts : list string) : list (list string) :=
  let preproc_pipe := [] in
  Py.append_each lemmatize_pipe
    (tqdm (nlp_pipe texts 20) (Z.of_nat (length df_preproc))) preproc_pipe.

Definition process_chunk (texts : list string) : list (list string) :=
  let preproc_pipe := [] in
  Py.append_each lemmatize_pipe (nlp_pipe texts 20) preproc_pipe.

(** [preprocess_parallel(texts, chunksize)], for a pool of [n_jobs]
    workers. *)
Definition preprocess_parallel_with (n_jobs : Z) (texts : list string)
    (chunksize : Z) : Py.result (list (list string)) :=
  let do := delayed process_chunk in
  chunks ← chunker texts (Z.of_nat (length df_preproc)) chunksize;
  let tasks := map do chunks in
  let result := Parallel n_jobs tasks in
  Py.Ok (flatten result).

(** The notebook's pool has 7 workers. *)
Definition preprocess_parallel (texts : list string) (chunksize : Z)
  : Py.result (list (list string)) :=
  preprocess_parallel_with 7 texts chunksize.

(** Workflow 1: [df_preproc['clean'].progress_apply(lemmatize)]. *)
Definition progress_apply {A B : Type} (f : A -> B) (column : list A)
  : list B :=
  map f column.

End Pipeline.

(** ** The stopword file *)

(** [get_stopwords()], for the text of the file [stopwordfile] as text mode
    gives it ([Py.universal_newlines] of its contents). *)
Definition get_stopwords (file : string) : gset string :=
  let stopwords :=
    Py.append_each (Py.strip (String Py.newline EmptyString))
      (Py.readlines file) [] in
  let stopwords_set := list_to_set stopwords in
  stopwords_set.

(** [list(stopwords)], in whatever order the set gives its elements. *)
Definition list_of_stopwords (stopwords : gset string) : list string :=
  elements stopwords.

Section StopwordList.

(** The globals once the notebook has rebound [stopwords] to a list. *)
Variable nlp : string -> Doc.
Variable stopwords : list string.

(** The condition of the comprehension, the membership test now a search of
    the list. *)
Definition keep_list (tok : Token) : bool :=
  is_alpha tok && negb (Py.contains (Py.lower (text tok)) stopwords).

(** [lemmatize(text)] with the stopword list. *)
Definition lemmatize_list (text : string) : list string :=
  let doc := nlp text in
  let lemma_list :=
    Py.comprehension (fun tok => Py.lower (lemma_ tok)) keep_list doc in
  lemma_list.

End StopwordList.

(** ** The cells of the notebook *)

(** [df['clean']]: the clean values of the rows; [None] when the column is
    missing (a KeyError). *)
Definition clean_column (df : DataFrame) : option (list cell) :=
  mapM clean df.

(** The texts of a column, as the annotator is handed them one after the
    other: it takes text only, and raises when it is handed a missing
    value. *)
Fixpoint texts_of (column : list cell) : Py.result (list string) :=
  match column with
  | [] => Py.Ok []
  | NaN :: _ => Py.Raise Py.TypeError
  | Str s :: rest => texts ← texts_of rest; Py.Ok (s :: texts)
  end.

Section Notebook.

Variable nlp : string -> Doc.
Variable stopwords : gset string.
Variable limit : Z.

(** The table [read_data] has loaded. *)
Variable df : DataFrame.

(** [df_preproc = cleaner(df)] *)
Definition df_preproc : DataFrame := cleaner limit df.


(** [preprocess_pipe(df_preproc['clean'])] *)
Definition preproc_pipe : option (Py.result (list (list string))) :=
  column ← clean_column df_preproc;
  Some (texts ← texts_of column;
        Py.Ok (preprocess_pipe nlp stopwords df_preproc texts)).

(** [preprocess_parallel(df_preproc['clean'], chunksize=1000)] *)
Definition preproc_parallel : option (Py.result (list (list string))) :=
  column ← clean_column df_preproc;
  Some (texts ← texts_of column;
        preprocess_parallel nlp stopwords df_preproc texts 1000).

End Notebook.

(** ** Sample data *)

Module Sample.

(** A whitespace tokenizer standing for the annotator: every word is a
    token and its own lemma. *)
Fixpoint split_words (s : string) (cur : string) : list string :=
  match s with
  | EmptyString => match cur with EmptyString => [] | _ => [cur] end
  | String c s' =>
      if (c =? " ")%char
      then match cur with
           | EmptyString => split_words s' EmptyString
           | _ => cur :: split_words s' EmptyString
           end
      else split_words s' (cur +:+ String c EmptyString)
  end.

Definition isalpha (s : string) : bool :=
  negb (String.eqb s EmptyString)
  && forallb (fun c => Py.is_upper c || Py.is_lower c) (Py.chars s).

Definition nlp (text : string) : Doc :=
  map (fun w => {| text := w; lemma_ := w; is_alpha := isalpha w |})
      (split_words text EmptyString).

Definition stopwords : gset string := {[ "the"%string ]}.

Definition row (content : string) : Row :=
  {| date := "2016-06-30"; headline := ""; content := Str content;
     clean := None |}.

Definition texts : list string := ["The cat sat"; "Dogs run fast"]%string.

End Sample.

(** ** Specification vocabulary *)

(** The quotient rounded up. *)
Definition ceil_div (a b : Z) : Z := (a + b - 1) / b.

(** The [i]-th block of [k] consecutive elements of [l]. *)
Definition chunk_at {A : Type} (k : nat) (l : list A) (i : nat) : list A :=
  take k (drop (i * k) l).

(** The text file that has the words [ws], one per line. *)
Fixpoint one_per_line (ws : list string) : string :=
  match ws with
  | [] => EmptyString
  | w :: rest => w +:+ String Py.newline (one_per_line rest)
  end.

(** The same file with lines that end in a carriage return and a line
    feed. *)
Fixpoint one_per_line_crlf (ws : list string) : string :=
  match ws with
  | [] => EmptyString
  | w :: rest =>
      w +:+ String Py.carriage_return
              (String Py.newline (one_per_line_crlf rest))
  end.

(** [s] has no line feed. *)
Definition single_line (s : string) : bool :=
  negb (Py.char_in Py.newline s).

(** The characters of a clean text: those of the class, and the space. *)
Definition clean_char (c : ascii) : bool :=
  Pattern.in_class c || Ascii.eqb c " ".

(** The number of characters (code points) of [s]. *)
Definition characters (s : string) : nat := length (Py.decode s).

(** The number of ASCII characters of [s]. *)
Definition ascii_characters (s : string) : nat :=
  length (filter (fun c => (N_of_ascii c <? 128)%N = true)
            (list_ascii_of_string s)).

(** The total number of characters of the strings of [l]. *)
Definition total_length (l : list string) : nat :=
  foldr (fun s n => (String.length s + n)%nat) 0%nat l.

(** What may follow a match: the end of the text, or a character that is not
    of the class. *)
Definition boundary (rest : string) : Prop :=
  rest = ""%string
  \/ exists c r, rest = String c r /\ Pattern.in_class c = false.

(** No character of [s] is an uppercase one ([isupper()] holds of none). *)
Definition no_upper (s : string) : bool :=
  forallb (fun c => negb (Unicode.is_uppercase c)) (Py.decode s).


(** [s] has a capital sigma. *)
Definition has_capital_sigma (s : string) : bool :=
  existsb (N.eqb Unicode.capital_sigma) (Py.decode s).

(** [s] has no carriage return. *)
Definition no_carriage_return (s : string) : bool :=
  negb (Py.char_in Py.carriage_return s).

(** Lowercasing within ASCII: the letters A to Z become a to z. *)
Definition ascii_lower_char (c : ascii) : ascii :=
  if Py.is_upper c then ascii_of_N (N_of_ascii c + 32) else c.

Fixpoint ascii_lower (s : string) : string :=
  match s with
  | EmptyString => EmptyString
  | String c s' => String (ascii_lower_char c) (ascii_lower s')
  end.

(** A token of the pattern: characters of the class only, between 3 and 50
    of them. *)
Definition token (m : string) : Prop :=
  Pattern.all_in_class m = true /\ (3 <= String.length m <= 50)%nat.

(** A match of the pattern starts at the head of [s]: [s] begins with 3
    characters of the class. *)
Definition match_starts (s : string) : Prop :=
  exists m rest, s = m +:+ rest
    /\ Pattern.all_in_class m = true /\ String.length m = 3%nat.

(** [occurrences s ms]: [ms] are the matches of the pattern in [s] read from
    the left: before each match no match starts, each match is a token and
    as long as it can be (50 characters, or up to the end of the text or a
    character that is not of the class), the next ones are those of the
    rest of the text, and after the last one no match starts. *)
Inductive occurrences : string -> list string -> Prop :=
| occurrences_none (s : string) :
    (forall pre t, s = pre +:+ t -> ~ match_starts t) ->
    occurrences s []
| occurrences_next (gap m rest : string) (ms : list string) :
    (forall pre t, gap = pre +:+ t -> t <> EmptyString ->
       ~ match_starts (t +:+ m +:+ rest)) ->
    token m ->
    (String.length m = 50%nat \/ boundary rest) ->
    occurrences rest ms ->
    occurrences (gap +:+ m +:+ rest) (m :: ms).

(** * Properties *)

(** ** [range] and slices *)

Lemma ceil_div_bounds a b :
  0 < b -> (ceil_div a b - 1) * b < a <= ceil_div a b * b.
Proof.
  intros Hb. unfold ceil_div.
  pose proof (Z.div_mod (a + b - 1) b ltac:(lia)) as E.
  pose proof (Z.mod_pos_bound (a + b - 1) b Hb) as M.
  nia.
Qed.

Lemma ceil_div_unique a b q :
  0 < b -> (q - 1) * b < a <= q * b -> q = ceil_div a b.
Proof.
  intros Hb Hq. pose proof (ceil_div_bounds a b Hb) as Hc. nia.
Qed.

Lemma ceil_div_nonneg a b : 0 < b -> 0 <= a -> 0 <= ceil_div a b.
Proof.
  intros Hb Ha. unfold ceil_div. apply Z.div_pos; lia.
Qed.

Lemma range_length_ceil N K :
  0 < K -> 0 <= N -> Py.range_length 0 N K = ceil_div N K.
Proof.
  intros HK HN. unfold Py.range_length.
  destruct (0 <? N) eqn:E.
  - apply Z.ltb_lt in E. apply ceil_div_unique; [lia|].
    pose proof (Z.div_mod (N - 0 - 1) K ltac:(lia)) as D.
    pose proof (Z.mod_pos_bound (N - 0 - 1) K HK) as M. nia.
  - apply Z.ltb_ge in E. apply ceil_div_unique; lia.
Qed.

Lemma range_from_zero N K :
  0 < K -> 0 <= N ->
  Py.range 0 N K
  = Py.Ok (map (fun i : nat => Z.of_nat i * K)
               (seq 0 (Z.to_nat (ceil_div N K)))).
Proof.
  intros HK HN. unfold Py.range.
  destruct (K =? 0) eqn:E0; [apply Z.eqb_eq in E0; lia|].
  destruct (0 <? K) eqn:E1; [|apply Z.ltb_ge in E1; lia].
  rewrite range_length_ceil by lia. f_equal.
Qed.

Lemma range_raises start stop step :
  Py.raises (Py.range start stop step) = true <-> step = 0.
Proof.
  unfold Py.range. destruct (step =? 0) eqn:E; simpl.
  - apply Z.eqb_eq in E. tauto.
  - apply Z.eqb_neq in E. split; [discriminate | tauto].
Qed.

Lemma range_backwards_empty N K :
  K < 0 -> 0 <= N -> Py.range 0 N K = Py.Ok [].
Proof.
  intros HK HN. unfold Py.range, Py.range_length.
  destruct (K =? 0) eqn:E0; [apply Z.eqb_eq in E0; lia|].
  destruct (0 <? K) eqn:E1; [apply Z.ltb_lt in E1; lia|].
  destruct (N <? 0) eqn:E2; [apply Z.ltb_lt in E2; lia|].
  reflexivity.
Qed.

Lemma slice_block {A : Type} (l : list A) (i : nat) (K : Z) :
  0 < K ->
  Py.slice l (Z.of_nat i * K) (Z.of_nat i * K + K)
  = chunk_at (Z.to_nat K) l i.
Proof.
  intros HK. unfold Py.slice, Py.adjust_index, chunk_at.
  set (len := Z.of_nat (length l)).
  destruct (Z.of_nat i * K <? 0) eqn:E1; [apply Z.ltb_lt in E1; nia|].
  destruct (Z.of_nat i * K + K <? 0) eqn:E2; [apply Z.ltb_lt in E2; nia|].
  assert (Hik : (i * Z.to_nat K)%nat = Z.to_nat (Z.of_nat i * K)) by nia.
  rewrite Hik.
  destruct (Z_lt_le_dec (Z.of_nat i * K) len) as [Hlt | Hge].
  - rewrite (Z.min_l (Z.of_nat i * K) len) by lia.
    apply list_eq; intros j.
    destruct (decide (j < Z.to_nat K)%nat) as [Hj | Hj].
    + destruct (decide (j < Z.to_nat (Z.min (Z.of_nat i * K + K) len
                                       - Z.of_nat i * K))%nat) as [Hj' | Hj'].
      * by rewrite !lookup_take_lt.
      * rewrite lookup_take_ge by lia. rewrite lookup_take_lt by lia.
        symmetry. rewrite lookup_drop. apply lookup_ge_None. subst len. lia.
    + rewrite !lookup_take_ge; [done | lia | lia].
  - rewrite !Z.min_r by lia.
    rewrite !drop_ge by (subst len; lia).
    by rewrite !take_nil.
Qed.

(** ** The chunker *)

Example chunker_5_2 :
  chunker [1; 2; 3; 4; 5] 5 2 = Py.Ok [[1; 2]; [3; 4]; [5]].
Proof. reflexivity. Qed.

Example chunker_step0 : chunker [1; 2; 3] 3 0 = Py.Raise Py.ValueError.
Proof. reflexivity. Qed.

Example chunker_negative : chunker [1; 2; 3] 3 (-2) = Py.Ok [].
Proof. reflexivity. Qed.

Example chunker_short_total :
  chunker [1; 2; 3; 4] 3 2 = Py.Ok [[1; 2]; [3; 4]].
Proof. reflexivity. Qed.

Lemma chunker_blocks {A : Type} (l : list A) (N K : Z) :
  0 < K -> 0 <= N ->
  chunker l N K
  = Py.Ok (map (chunk_at (Z.to_nat K) l) (seq 0 (Z.to_nat (ceil_div N K)))).
Proof.
  intros HK HN. unfold chunker. rewrite range_from_zero by lia. simpl.
  f_equal. rewrite map_map. apply map_ext. intros i. by apply slice_block.
Qed.

Lemma chunker_raises {A : Type} (l : list A) (N K : Z) :
  Py.raises (chunker l N K) = true <-> K = 0.
Proof.
  unfold chunker. rewrite <- (range_raises 0 N K).
  destruct (Py.range 0 N K); simpl; tauto.
Qed.

Lemma flatten_app {A : Type} (xs ys : list (list A)) :
  flatten (xs ++ ys) = flatten xs ++ flatten ys.
Proof.
  induction xs as [|x xs IH]; simpl; [done|]. by rewrite IH, app_assoc.
Qed.

Lemma flatten_blocks {A : Type} (k n : nat) (l : list A) :
  flatten (map (chunk_at k l) (seq 0 n)) = take (n * k) l.
Proof.
  induction n as [|n IH]; [by rewrite take_0|].
  rewrite seq_S, map_app, flatten_app, IH. simpl.
  rewrite app_nil_r. unfold chunk_at.
  rewrite take_take_drop. f_equal. lia.
Qed.

Lemma flatten_map_map {A B : Type} (f : A -> B) (xs : list (list A)) :
  flatten (map (map f) xs) = map f (flatten xs).
Proof.
  induction xs as [|x xs IH]; simpl; [done|]. by rewrite map_app, IH.
Qed.

(** ** The sequential and the per-chunk loops *)

Lemma lookup_map {A B : Type} (f : A -> B) (l : list A) (i : nat) :
  map f l !! i = f <$> (l !! i).
Proof. exact (list_lookup_fmap f l i). Qed.

Lemma append_each_map {A B : Type} (f : A -> B) (l : list A) (acc : list B) :
  Py.append_each f l acc = acc ++ map f l.
Proof.
  unfold Py.append_each. revert acc.
  induction l as [|x l IH]; intros acc; simpl.
  - by rewrite app_nil_r.
  - rewrite IH. by rewrite <- app_assoc.
Qed.

Section PipelineFacts.

Variable nlp : string -> Doc.
Variable stopwords : gset string.
Variable df_preproc : DataFrame.

Lemma process_chunk_map (texts : list string) :
  process_chunk nlp stopwords texts = map (lemmatize nlp stopwords) texts.
Proof.
  unfold process_chunk, nlp_pipe. rewrite append_each_map. simpl.
  by rewrite map_map.
Qed.

Lemma preprocess_pipe_map (texts : list string) :
  preprocess_pipe nlp stopwords df_preproc texts
  = map (lemmatize nlp stopwords) texts.
Proof.
  unfold preprocess_pipe, tqdm, nlp_pipe. rewrite append_each_map. simpl.
  by rewrite map_map.
Qed.

Lemma parallel_delayed_map {A B : Type} (f : A -> B) (n_jobs : Z)
    (args : list A) :
  Parallel n_jobs (map (delayed f) args) = map f args.
Proof. unfold Parallel. rewrite map_map. by apply map_ext. Qed.

Lemma preprocess_parallel_chunks (n_jobs : Z) (texts : list string) (K : Z)
    (chunks : list (list string)) :
  chunker texts (Z.of_nat (length df_preproc)) K = Py.Ok chunks ->
  preprocess_parallel_with nlp stopwords df_preproc n_jobs texts K
  = Py.Ok (flatten (map (process_chunk nlp stopwords) chunks)).
Proof.
  intros Hc. unfold preprocess_parallel_with. rewrite Hc. simpl.
  by rewrite parallel_delayed_map.
Qed.

Lemma preprocess_parallel_prefix (n_jobs : Z) (texts : list string) (K : Z) :
  0 < K ->
  preprocess_parallel_with nlp stopwords df_preproc n_jobs texts K
  = Py.Ok (map (lemmatize nlp stopwords)
             (take (Z.to_nat (ceil_div (Z.of_nat (length df_preproc)) K)
                    * Z.to_nat K) texts)).
Proof.
  intros HK.
  rewrite (preprocess_parallel_chunks n_jobs texts K _
             (chunker_blocks texts _ K HK (Nat2Z.is_nonneg _))).
  f_equal.
  rewrite (map_ext _ _ process_chunk_map).
  by rewrite flatten_map_map, flatten_blocks.
Qed.

Lemma preprocess_parallel_raises (n_jobs : Z) (texts : list string) (K : Z) :
  Py.raises (preprocess_parallel_with nlp stopwords df_preproc n_jobs texts K)
  = true <-> K = 0.
Proof.
  rewrite <- (chunker_raises texts (Z.of_nat (length df_preproc)) K).
  unfold preprocess_parallel_with.
  destruct (chunker texts (Z.of_nat (length df_preproc)) K); simpl; tauto.
Qed.

End PipelineFacts.

(** ** Chunking: partition of the input *)

Lemma length_chunk_at {A : Type} (k : nat) (l : list A) (i : nat) :
  length (chunk_at k l i) = (k `min` (length l - i * k))%nat.
Proof. unfold chunk_at. by rewrite length_take, length_drop. Qed.

Lemma lookup_blocks {A : Type} (k n : nat) (l : list A) (i : nat)
    (c : list A) :
  map (chunk_at k l) (seq 0 n) !! i = Some c ->
  (i < n)%nat /\ c = chunk_at k l i.
Proof.
  rewrite lookup_map. intros H.
  destruct (seq 0 n !! i) as [j|] eqn:E; [|discriminate].
  apply lookup_seq in E as [-> Hi]. simpl in H. by injection H as <-.
Qed.

(** C2 (amended). For every sequence of N items and every chunk size
    K > 0, the chunker called with total_length = N yields exactly
    ceil(N/K) chunks; chunk i is the block of the input that starts at
    index i*K (contiguous, non-overlapping, in order); every chunk has
    between 1 and K items and every chunk but the last has exactly K;
    concatenating the chunks in order gives back the input. With
    1 <= N <= K there is exactly one chunk, the input itself; with N = 0
    there is no chunk at all; with K = 1 there are N chunks of size 1. *)
Theorem chunker_partition {A : Type} (l : list A) (K : Z) :
  0 < K ->
  exists chunks : list (list A),
    chunker l (Z.of_nat (length l)) K = Py.Ok chunks
    /\ Z.of_nat (length chunks) = ceil_div (Z.of_nat (length l)) K
    /\ flatten chunks = l
    /\ (forall i c, chunks !! i = Some c ->
          c = take (Z.to_nat K) (drop (i * Z.to_nat K) l)
          /\ 1 <= Z.of_nat (length c) <= K
          /\ ((S i < length chunks)%nat -> Z.of_nat (length c) = K))
    /\ (1 <= Z.of_nat (length l) <= K -> chunks = [l])
    /\ (length l = 0%nat -> chunks = [])
    /\ (K = 1 ->
          length chunks = length l
          /\ forall i c, chunks !! i = Some c -> length c = 1%nat).
Proof.
  intros HK.
  set (N := Z.of_nat (length l)).
  set (n := Z.to_nat (ceil_div N K)). set (k := Z.to_nat K).
  pose proof (ceil_div_bounds N K HK) as Hb.
  pose proof (ceil_div_nonneg N K HK ltac:(lia)) as Hn.
  assert (Hlen : length (map (chunk_at k l) (seq 0 n)) = n)
    by (by rewrite length_map, length_seq).
  assert (Helem : forall i c,
             map (chunk_at k l) (seq 0 n) !! i = Some c ->
             c = take k (drop (i * k) l)
             /\ 1 <= Z.of_nat (length c) <= K
             /\ ((S i < n)%nat -> Z.of_nat (length c) = K)).
  { intros i c Hc. apply lookup_blocks in Hc as [Hi ->].
    split; [done|]. rewrite length_chunk_at.
    assert (Z.of_nat i * K <= (ceil_div N K - 1) * K) by nia.
    assert (Z.of_nat (i * k) = Z.of_nat i * K) by nia.
    split; [subst N; lia|]. intros Hi'.
    assert (Z.of_nat (S i) * K <= (ceil_div N K - 1) * K) by nia.
    subst N; lia. }
  exists (map (chunk_at k l) (seq 0 n)).
  split; [by apply chunker_blocks; lia|].
  split; [rewrite Hlen; subst n; lia|].
  split; [rewrite flatten_blocks; apply take_ge; subst N; nia|].
  split; [by rewrite Hlen|].
  split; [|split].
  - intros HNK.
    assert (ceil_div N K = 1) as E
      by (symmetry; apply ceil_div_unique; subst N; lia).
    subst n. rewrite E. simpl. unfold chunk_at. simpl.
    rewrite drop_0, take_ge; [done | subst N k; lia].
  - intros H0.
    assert (ceil_div N K = 0) as E
      by (symmetry; apply ceil_div_unique; subst N; lia).
    subst n. by rewrite E.
  - intros ->. split.
    + rewrite Hlen. subst n N. unfold ceil_div.
      replace (Z.of_nat (length l) + 1 - 1) with (Z.of_nat (length l)) by lia.
      rewrite Z.div_1_r. lia.
    + intros i c Hc. destruct (Helem i c Hc) as (_ & Hl & _). lia.
Qed.

Lemma chunker_partition_witness :
  exists chunks : list (list Z),
    chunker [1; 2; 3; 4; 5] (Z.of_nat (length [1; 2; 3; 4; 5])) 2
    = Py.Ok chunks
    /\ Z.of_nat (length chunks)
       = ceil_div (Z.of_nat (length [1; 2; 3; 4; 5])) 2
    /\ flatten chunks = [1; 2; 3; 4; 5]
    /\ (forall i c, chunks !! i = Some c ->
          c = take (Z.to_nat 2) (drop (i * Z.to_nat 2) [1; 2; 3; 4; 5])
          /\ 1 <= Z.of_nat (length c) <= 2
          /\ ((S i < length chunks)%nat -> Z.of_nat (length c) = 2))
    /\ (1 <= Z.of_nat (length [1; 2; 3; 4; 5]) <= 2 ->
        chunks = [[1; 2; 3; 4; 5]])
    /\ (length [1; 2; 3; 4; 5] = 0%nat -> chunks = [])
    /\ (2 = 1 ->
          length chunks = length [1; 2; 3; 4; 5]
          /\ forall i c, chunks !! i = Some c -> length c = 1%nat).
Proof. apply (chunker_partition [1; 2; 3; 4; 5] 2). lia. Defined.

(** C2, as stated, fails on the empty sequence: there K >= N, and the
    chunker yields no chunk at all rather than exactly one. *)
Lemma chunker_single_chunk_counterexample :
  ~ (forall (l : list Z) (K : Z),
       0 < K -> K >= Z.of_nat (length l) ->
       exists chunks,
         chunker l (Z.of_nat (length l)) K = Py.Ok chunks
         /\ length chunks = 1%nat).
Proof.
  intros H. destruct (H [] 1 ltac:(lia) ltac:(simpl; lia)) as (chunks & Hc & Hl).
  vm_compute in Hc. injection Hc as <-. discriminate Hl.
Qed.

(** ** Chunking: failure *)

(** C6 (amended). The chunker fails exactly when the chunk size is zero:
    for every input sequence and every K > 0 it returns, for K = 0 it raises
    ValueError, and for a negative K it does not fail either (with a
    non-negative total length it returns no chunk at all). The same holds of
    preprocess_parallel for every worker count: nothing else about the chunk
    size is checked. *)
Theorem chunker_fails_iff_zero {A : Type} (l : list A) (N K : Z) :
  (Py.raises (chunker l N K) = true <-> K = 0)
  /\ (0 < K -> exists chunks, chunker l N K = Py.Ok chunks)
  /\ (K = 0 -> chunker l N K = Py.Raise Py.ValueError)
  /\ (K < 0 -> 0 <= N -> chunker l N K = Py.Ok [])
  /\ (forall nlp stopwords df_preproc n_jobs texts,
        Py.raises
          (preprocess_parallel_with nlp stopwords df_preproc n_jobs texts K)
        = true <-> K = 0).
Proof.
  split; [apply chunker_raises|].
  split.
  { intros HK. pose proof (chunker_raises l N K) as [H _].
    destruct (chunker l N K) as [chunks|e]; [by exists chunks|].
    specialize (H eq_refl). lia. }
  split; [by intros ->|].
  split.
  { intros HK HN. unfold chunker. by rewrite range_backwards_empty. }
  intros. apply preprocess_parallel_raises.
Qed.

Lemma chunker_fails_iff_zero_witness :
  (exists chunks, chunker [1; 2; 3] 3 2 = Py.Ok chunks)
  /\ chunker [1; 2; 3] 3 0 = Py.Raise Py.ValueError
  /\ chunker [1; 2; 3] 3 (-2) = Py.Ok [].
Proof.
  split; [|split].
  - apply (chunker_fails_iff_zero [1; 2; 3] 3 2). lia.
  - by apply (chunker_fails_iff_zero [1; 2; 3] 3 0).
  - apply (chunker_fails_iff_zero [1; 2; 3] 3 (-2)); lia.
Defined.

(** C6, as stated, fails for a negative chunk size: the chunker returns
    (an empty sequence of chunks) instead of failing. *)
Lemma chunker_negative_counterexample :
  ~ (forall (l : list Z) (N K : Z),
       K <= 0 -> Py.raises (chunker l N K) = true).
Proof.
  intros H. specialize (H [1; 2; 3] 3 (-2) ltac:(lia)).
  vm_compute in H. discriminate H.
Qed.

(** ** The parallel workflow *)

Example sample_parallel :
  preprocess_parallel Sample.nlp Sample.stopwords
    [Sample.row "a"; Sample.row "b"] Sample.texts 1
  = Py.Ok [["cat"; "sat"]; ["dogs"; "run"; "fast"]]%string.
Proof. vm_compute. reflexivity. Qed.

Lemma prefix_all {A : Type} (texts : list A) (T K : Z) :
  0 < K -> 0 <= T ->
  Z.of_nat (length texts) <= ceil_div T K * K ->
  take (Z.to_nat (ceil_div T K) * Z.to_nat K) texts = texts.
Proof.
  intros HK HT Hle. apply take_ge.
  pose proof (ceil_div_nonneg T K HK HT). nia.
Qed.

(** C1 (code bug). [preprocess_parallel] takes the number of documents
    from the table [df_preproc], not from its argument: with a table of one
    row, two documents and chunk size 1 it returns one LemmaList, that of
    the first document, where the input has two and the sequential
    [preprocess_pipe] returns two. *)
Theorem preprocess_parallel_drops_documents :
  preprocess_parallel Sample.nlp Sample.stopwords [Sample.row "a"]
    Sample.texts 1
  = Py.Ok [["cat"; "sat"]]%string
  /\ length Sample.texts = 2%nat
  /\ preprocess_pipe Sample.nlp Sample.stopwords [Sample.row "a"]
       Sample.texts
     = [["cat"; "sat"]; ["dogs"; "run"; "fast"]]%string.
Proof. vm_compute. repeat split. Qed.

(** Where the table [df_preproc] is at least as long as the input (in the
    notebook's call the documents are a column of that table), the output
    of [preprocess_parallel] for a chunk size K > 0 is the flattening of the
    per-chunk results in chunk order, has exactly the length of the input,
    and its element i is the LemmaList computed for input document i. *)
Theorem preprocess_parallel_order (nlp : string -> Doc)
    (stopwords : gset string) (df_preproc : DataFrame)
    (texts : list string) (K : Z) :
  0 < K ->
  (length texts <= length df_preproc)%nat ->
  exists (chunks : list (list string)) (out : list (list string)),
    chunker texts (Z.of_nat (length df_preproc)) K = Py.Ok chunks
    /\ out = flatten (map (process_chunk nlp stopwords) chunks)
    /\ preprocess_parallel nlp stopwords df_preproc texts K = Py.Ok out
    /\ length out = length texts
    /\ forall i t, texts !! i = Some t ->
         out !! i = Some (lemmatize_pipe stopwords (nlp t)).
Proof.
  intros HK Hlen.
  set (T := Z.of_nat (length df_preproc)).
  pose proof (chunker_blocks texts T K HK ltac:(lia)) as Hc.
  pose proof (ceil_div_bounds T K HK) as Hb.
  eexists. exists (map (lemmatize nlp stopwords) texts).
  split; [exact Hc|].
  assert (Hout : flatten (map (process_chunk nlp stopwords)
                   (map (chunk_at (Z.to_nat K) texts)
                      (seq 0 (Z.to_nat (ceil_div T K)))))
                 = map (lemmatize nlp stopwords) texts).
  { rewrite (map_ext _ _ (process_chunk_map nlp stopwords)).
    rewrite flatten_map_map, flatten_blocks.
    rewrite prefix_all; [done | lia | lia | subst T; lia]. }
  split; [by rewrite Hout|].
  split.
  { unfold preprocess_parallel.
    rewrite (preprocess_parallel_chunks nlp stopwords df_preproc 7 texts K _ Hc).
    by rewrite Hout. }
  split; [by rewrite length_map|].
  intros i t Ht. by rewrite lookup_map, Ht.
Qed.

Lemma preprocess_parallel_order_witness :
  exists (chunks : list (list string)) (out : list (list string)),
    chunker Sample.texts
      (Z.of_nat (length [Sample.row "a"; Sample.row "b"])) 1 = Py.Ok chunks
    /\ out = flatten (map (process_chunk Sample.nlp Sample.stopwords) chunks)
    /\ preprocess_parallel Sample.nlp Sample.stopwords
         [Sample.row "a"; Sample.row "b"] Sample.texts 1 = Py.Ok out
    /\ length out = length Sample.texts
    /\ forall i t, Sample.texts !! i = Some t ->
         out !! i = Some (lemmatize_pipe Sample.stopwords (Sample.nlp t)).
Proof.
  apply (preprocess_parallel_order Sample.nlp Sample.stopwords
           [Sample.row "a"; Sample.row "b"] Sample.texts 1).
  - lia.
  - simpl. lia.
Defined.

(** No output length as the input's for every input: with an empty table,
    one document and K = 1 the output is empty. *)
Lemma preprocess_parallel_length_counterexample :
  ~ (forall (nlp : string -> Doc) (stopwords : gset string)
       (df_preproc : DataFrame) (texts : list string) (K : Z),
       0 < K ->
       exists out,
         preprocess_parallel nlp stopwords df_preproc texts K = Py.Ok out
         /\ length out = length texts).
Proof.
  intros H.
  destruct (H Sample.nlp Sample.stopwords [] ["The cat sat"%string] 1
              ltac:(lia)) as (out & Ho & Hl).
  vm_compute in Ho. injection Ho as <-. discriminate Hl.
Qed.

(** C3 (code bug). The parallel pipeline does not return what the
    sequential ones return when the texts are more than the rows of the
    table [df_preproc]: with a table of two rows, three texts and chunk size
    2, [preprocess_parallel] returns the LemmaLists of the first two texts,
    while [preprocess_pipe] and [lemmatize] applied to each text return
    three. *)
Theorem preprocess_parallel_differs_from_sequential :
  preprocess_parallel Sample.nlp Sample.stopwords
    [Sample.row "a"; Sample.row "b"]
    ["The cat sat"; "Dogs run fast"; "Birds fly"]%string 2
  = Py.Ok [["cat"; "sat"]; ["dogs"; "run"; "fast"]]%string
  /\ preprocess_pipe Sample.nlp Sample.stopwords
       [Sample.row "a"; Sample.row "b"]
       ["The cat sat"; "Dogs run fast"; "Birds fly"]%string
     = [["cat"; "sat"]; ["dogs"; "run"; "fast"]; ["birds"; "fly"]]%string
  /\ progress_apply (lemmatize Sample.nlp Sample.stopwords)
       ["The cat sat"; "Dogs run fast"; "Birds fly"]%string
     = [["cat"; "sat"]; ["dogs"; "run"; "fast"]; ["birds"; "fly"]]%string.
Proof. vm_compute. repeat split. Qed.

(** Where the table [df_preproc] is at least as long as the texts (in the
    notebook's call the texts are a column of that table), for every chunk
    size K > 0 and every worker count the parallel chunked pipeline returns
    the sequence of LemmaLists of the sequential workflows: that of
    [preprocess_pipe], which is [lemmatize] applied to each text in turn. *)
Theorem preprocess_parallel_sequential (nlp : string -> Doc)
    (stopwords : gset string) (df_preproc : DataFrame) (n_jobs : Z)
    (texts : list string) (K : Z) :
  0 < K ->
  (length texts <= length df_preproc)%nat ->
  preprocess_parallel_with nlp stopwords df_preproc n_jobs texts K
  = Py.Ok (preprocess_pipe nlp stopwords df_preproc texts)
  /\ preprocess_pipe nlp stopwords df_preproc texts
     = progress_apply (lemmatize nlp stopwords) texts
  /\ preprocess_parallel nlp stopwords df_preproc texts K
     = Py.Ok (progress_apply (lemmatize nlp stopwords) texts).
Proof.
  intros HK Hlen.
  set (T := Z.of_nat (length df_preproc)).
  pose proof (ceil_div_bounds T K HK) as Hb.
  assert (Hpar : forall n,
             preprocess_parallel_with nlp stopwords df_preproc n texts K
             = Py.Ok (map (lemmatize nlp stopwords) texts)).
  { intros n. rewrite preprocess_parallel_prefix by done.
    fold T. rewrite prefix_all; [done | lia | lia | subst T; lia]. }
  rewrite preprocess_pipe_map. unfold preprocess_parallel, progress_apply.
  by rewrite !Hpar.
Qed.

Lemma preprocess_parallel_sequential_witness :
  preprocess_parallel_with Sample.nlp Sample.stopwords
    [Sample.row "a"; Sample.row "b"] 2 Sample.texts 1
  = Py.Ok (preprocess_pipe Sample.nlp Sample.stopwords
             [Sample.row "a"; Sample.row "b"] Sample.texts)
  /\ preprocess_pipe Sample.nlp Sample.stopwords
       [Sample.row "a"; Sample.row "b"] Sample.texts
     = progress_apply (lemmatize Sample.nlp Sample.stopwords) Sample.texts
  /\ preprocess_parallel Sample.nlp Sample.stopwords
       [Sample.row "a"; Sample.row "b"] Sample.texts 1
     = Py.Ok (progress_apply (lemmatize Sample.nlp Sample.stopwords)
                Sample.texts).
Proof.
  apply (preprocess_parallel_sequential Sample.nlp Sample.stopwords
           [Sample.row "a"; Sample.row "b"] 2 Sample.texts 1).
  - lia.
  - simpl. lia.
Defined.

(** The parallel and the sequential pipeline do not agree for every input:
    with a table of one row, two texts and K = 1 the parallel pipeline
    returns the LemmaList of the first text only. *)
Lemma preprocess_parallel_sequential_counterexample :
  ~ (forall (nlp : string -> Doc) (stopwords : gset string)
       (df_preproc : DataFrame) (n_jobs : Z) (texts : list string) (K : Z),
       0 < K ->
       preprocess_parallel_with nlp stopwords df_preproc n_jobs texts K
       = Py.Ok (preprocess_pipe nlp stopwords df_preproc texts)).
Proof.
  intros H.
  specialize (H Sample.nlp Sample.stopwords [Sample.row "a"] 7
                Sample.texts 1 ltac:(lia)).
  vm_compute in H. discriminate H.
Qed.

(** C8 (amended). The chunker takes its positions from its separate
    total_length argument T, not from the length of the iterable: for K > 0
    and T >= 0 it yields ceil(T/K) chunks, chunk i being the block
    iterable[i*K : i*K + K] clipped to the iterable, so that together they
    cover the first min(len, K * ceil(T/K)) items, and a chunk that starts
    at or after the end of the iterable is empty. preprocess_parallel passes
    len(df_preproc) as T: it returns the LemmaLists of the first
    K * ceil(len(df_preproc)/K) texts; that is one LemmaList per input text
    whenever len(texts) <= K * ceil(len(df_preproc)/K), in particular when
    len(texts) = len(df_preproc), and otherwise the texts from that index on
    are dropped from the output. *)
Theorem chunker_total_length (nlp : string -> Doc) (stopwords : gset string)
    (df_preproc : DataFrame) (texts : list string) (K : Z) :
  0 < K ->
  (forall (A : Type) (iterable : list A) (T : Z), 0 <= T ->
     let n := Z.to_nat (ceil_div T K) in
     let k := Z.to_nat K in
     chunker iterable T K = Py.Ok (map (chunk_at k iterable) (seq 0 n))
     /\ flatten (map (chunk_at k iterable) (seq 0 n)) = take (n * k) iterable
     /\ forall i, (length iterable <= i * k)%nat -> chunk_at k iterable i = [])
  /\ (let covered :=
        (Z.to_nat (ceil_div (Z.of_nat (length df_preproc)) K)
         * Z.to_nat K)%nat in
      preprocess_parallel nlp stopwords df_preproc texts K
      = Py.Ok (map (lemmatize nlp stopwords) (take covered texts))
      /\ ((length texts <= covered)%nat ->
          preprocess_parallel nlp stopwords df_preproc texts K
          = Py.Ok (map (lemmatize nlp stopwords) texts))
      /\ ((covered < length texts)%nat ->
          exists out,
            preprocess_parallel nlp stopwords df_preproc texts K = Py.Ok out
            /\ length out = covered)).
Proof.
  intros HK. split.
  - intros A iterable T HT n k.
    split; [by apply chunker_blocks|].
    split; [apply flatten_blocks|].
    intros i Hi. unfold chunk_at. by rewrite drop_ge, take_nil.
  - intros covered.
    assert (Hp : preprocess_parallel nlp stopwords df_preproc texts K
                 = Py.Ok (map (lemmatize nlp stopwords) (take covered texts)))
      by (by apply preprocess_parallel_prefix).
    split; [done|]. split.
    + intros Hc. by rewrite Hp, take_ge.
    + intros Hc. eexists. split; [exact Hp|].
      rewrite length_map, length_take. lia.
Qed.

Lemma chunker_total_length_witness :
  chunker [1; 2; 3; 4] 3 2 = Py.Ok [[1; 2]; [3; 4]]
  /\ chunker [1; 2; 3] 6 2 = Py.Ok [[1; 2]; [3]; []]
  /\ preprocess_parallel Sample.nlp Sample.stopwords [Sample.row "a"]
       Sample.texts 2
     = Py.Ok (map (lemmatize Sample.nlp Sample.stopwords) Sample.texts).
Proof.
  pose proof (chunker_total_length Sample.nlp Sample.stopwords
                [Sample.row "a"] Sample.texts 2 ltac:(lia)) as [Hc Hp].
  split; [|split].
  - exact (proj1 (Hc Z [1; 2; 3; 4] 3 ltac:(lia))).
  - exact (proj1 (Hc Z [1; 2; 3] 6 ltac:(lia))).
  - apply Hp. simpl. lia.
Defined.

(** C8, as stated, fails where the chunk size does not divide
    total_length: the last chunk runs past total_length, so the chunker
    covers more than the index range [0, total_length) and texts beyond
    total_length are not dropped (four items, total_length 3, K = 2: all
    four are covered). *)
Lemma chunker_total_length_counterexample :
  ~ (forall (iterable : list Z) (T K : Z),
       0 < K -> 0 <= T -> T < Z.of_nat (length iterable) ->
       exists chunks,
         chunker iterable T K = Py.Ok chunks
         /\ flatten chunks = take (Z.to_nat T) iterable).
Proof.
  intros H.
  destruct (H [1; 2; 3; 4] 3 2 ltac:(lia) ltac:(lia) ltac:(simpl; lia))
    as (chunks & Hc & Hf).
  vm_compute in Hc. injection Hc as <-. vm_compute in Hf. discriminate Hf.
Qed.

(** ** The cleaning pattern *)

Section PatternFacts.

Import Pattern.

Lemma string_app_cons (c : ascii) (s t : string) :
  String c s +:+ t = String c (s +:+ t).
Proof. reflexivity. Qed.

Lemma string_app_nil_r (s : string) : s +:+ "" = s.
Proof.
  induction s as [|c s IH]; [done|]. by rewrite string_app_cons, IH.
Qed.

Lemma string_app_assoc (a b c : string) :
  (a +:+ b) +:+ c = a +:+ (b +:+ c).
Proof.
  induction a as [|x a IH]; [done|]. by rewrite !string_app_cons, IH.
Qed.

Lemma span_spec (n : nat) (s : string) :
  s = (span n s).1 +:+ (span n s).2
  /\ all_in_class (span n s).1 = true
  /\ (String.length (span n s).1 <= n)%nat
  /\ (String.length (span n s).1 = n
      \/ (span n s).2 = ""%string
      \/ exists c r, (span n s).2 = String c r /\ in_class c = false).
Proof.
  revert s. induction n as [|n IH]; intros [|c s]; simpl;
    [repeat split; (done || lia || auto)..|].
  destruct (in_class c) eqn:Ec; simpl.
  - destruct (IH s) as (Happ & Hcls & Hlen & Hmax).
    destruct (span n s) as [m rest]; simpl in *.
    split; [rewrite string_app_cons; congruence|].
    split; [unfold all_in_class in *; simpl; by rewrite Ec|].
    split; [lia|]. destruct Hmax as [H | [H | H]]; auto.
  - repeat split; try done; try lia. right; right. by exists c, s.
Qed.

Lemma match_at_spec (s m rest : string) :
  match_at s = Some (m, rest) ->
  s = m +:+ rest
  /\ all_in_class m = true
  /\ (3 <= String.length m <= 50)%nat
  /\ (String.length m = 50%nat
      \/ rest = ""%string
      \/ exists c r, rest = String c r /\ in_class c = false).
Proof.
  unfold match_at. pose proof (span_spec 50 s) as H.
  destruct (span 50 s) as [m' rest']; simpl in H.
  destruct (3 <=? String.length m')%nat eqn:E; [|discriminate].
  intros [= <- <-]. apply Nat.leb_le in E.
  destruct H as (H1 & H2 & H3 & H4). repeat split; (done || lia).
Qed.

Lemma no_match_in_nil (tail : string) : no_match_in "" tail.
Proof. intros [|c' pre] c t H; discriminate H. Qed.

Lemma no_match_in_cons (c : ascii) (gap tail : string) :
  match_at (String c (gap +:+ tail)) = None ->
  no_match_in gap tail ->
  no_match_in (String c gap) tail.
Proof.
  intros Hc Hgap [|c' pre] d t H.
  - injection H as -> ->. by rewrite string_app_cons.
  - injection H as -> H. by apply (Hgap pre).
Qed.

Lemma scan_skip (c : ascii) (s : string) (ms : list string) :
  match_at (String c s) = None -> scan s ms -> scan (String c s) ms.
Proof.
  intros Hc Hs. destruct Hs as [s Hno | gap m rest ms Hno Hm Hs].
  - apply scan_end. apply no_match_in_cons; [|done].
    by rewrite string_app_nil_r.
  - change (String c (gap +:+ m +:+ rest))
      with (String c gap +:+ m +:+ rest).
    apply scan_match; [|done..]. by apply no_match_in_cons.
Qed.

(** [findall] returns the leftmost non-overlapping matches, in order. *)
Lemma findall_scan (s : string) : scan s (findall s).
Proof.
  funelim (findall s).
  - apply scan_end, no_match_in_nil.
  - destruct (match_at_spec _ _ _ H) as (Happ & _).
    rewrite Happ. change (m +:+ rest) with ("" +:+ m +:+ rest).
    apply scan_match; [apply no_match_in_nil | by rewrite <- Happ | done].
  - by apply scan_skip.
Qed.

(** A token of the cleaner: characters of the class only, between 3 and 50
    of them. *)
Lemma findall_tokens (s m : string) :
  m ∈ findall s ->
  all_in_class m = true /\ (3 <= String.length m <= 50)%nat.
Proof.
  funelim (findall s); intros Hin.
  - by apply elem_of_nil in Hin.
  - apply elem_of_cons in Hin as [-> | Hin]; [|by auto].
    destruct (match_at_spec _ _ _ H) as (_ & ? & ? & _). done.
  - by auto.
Qed.

Lemma span_at_least (n : nat) (m rest : string) :
  all_in_class m = true -> (String.length m <= n)%nat ->
  (String.length m <= String.length (span n (m +:+ rest)).1)%nat.
Proof.
  revert n. induction m as [|c m IH]; intros n Hcls Hlen; [simpl; lia|].
  unfold all_in_class in Hcls. simpl in Hcls.
  apply andb_true_iff in Hcls as [Hc Hcls].
  destruct n as [|n]; [simpl in Hlen; lia|].
  rewrite string_app_cons. simpl. rewrite Hc.
  specialize (IH n Hcls ltac:(simpl in Hlen; lia)).
  destruct (span n (m +:+ rest)) as [a b]. simpl in *. lia.
Qed.

Lemma no_match_starts (t : string) :
  match_at t = None -> ~ match_starts t.
Proof.
  intros Hnone (m & rest & -> & Hcls & Hlen).
  unfold match_at in Hnone.
  pose proof (span_at_least 50 m rest Hcls ltac:(lia)) as Hspan.
  destruct (span 50 (m +:+ rest)) as [a b]. simpl in Hspan.
  destruct (3 <=? String.length a)%nat eqn:E; [discriminate|].
  apply Nat.leb_gt in E. lia.
Qed.

Lemma scan_occurrences (s : string) (ms : list string) :
  scan s ms -> occurrences s ms.
Proof.
  induction 1 as [s Hno | gap m rest ms Hno Hm _ IH].
  - apply occurrences_none. intros pre t -> Hstart.
    destruct t as [|c t].
    + destruct Hstart as (m & rest & Heq & _ & Hlen).
      destruct m; [discriminate Hlen | discriminate Heq].
    + apply (no_match_starts (String c t)); [|done].
      rewrite <- (string_app_nil_r (String c t)). by apply (Hno pre).
  - destruct (match_at_spec _ _ _ Hm) as (_ & Hcls & Hlen & Hmax).
    apply occurrences_next; [|done|done|done].
    intros pre t -> Ht. destruct t as [|c t]; [done|].
    apply no_match_starts. by apply (Hno pre).
Qed.

(** [findall] returns the matches read from the left, each as long as it
    can be. *)
Lemma findall_occurrences (s : string) : occurrences s (findall s).
Proof. apply scan_occurrences, findall_scan. Qed.

End PatternFacts.

(** ** The cleaner *)

Example findall_sample :
  Pattern.findall "It's a well-known URL: http://t.co/Ab9 (2016)!"
  = ["well-known"; "URL"; "http"; "Ab9"; "2016"]%string.
Proof. vm_compute. reflexivity. Qed.

Example cleaner_sample :
  cleaner 1 [Sample.row "It's a well-known URL"; Sample.row "second row"]
  = [ {| date := "2016-06-30"; headline := "";
         content := Str "It's a well-known URL";
         clean := Some (Str "well-known URL") |} ].
Proof. vm_compute. reflexivity. Qed.

Lemma slice_prefix {A : Type} (l : list A) (n : Z) :
  0 < n ->
  Py.slice l 0 n = take (Z.to_nat (Z.min n (Z.of_nat (length l)))) l.
Proof.
  intros Hn. unfold Py.slice, Py.adjust_index.
  rewrite (proj2 (Z.ltb_ge n 0)) by lia.
  change (0 <? 0) with false. cbv iota.
  rewrite (Z.min_l 0) by lia. rewrite Z.sub_0_r.
  change (Z.to_nat 0) with 0%nat. by rewrite drop_0.
Qed.

Lemma length_assign_clean (df : DataFrame) :
  length (assign_clean df) = length df.
Proof. unfold assign_clean. by rewrite length_map. Qed.

Lemma assign_clean_take (n : nat) (df : DataFrame) :
  take n (assign_clean df) = assign_clean (take n df).
Proof. unfold assign_clean. symmetry. apply (fmap_take _ n df). Qed.

Lemma lookup_assign_clean (df : DataFrame) (i : nat) (r' : Row) :
  assign_clean df !! i = Some r' ->
  exists r, df !! i = Some r
    /\ date r' = date r /\ headline r' = headline r
    /\ content r' = content r
    /\ clean r' = Some (str_findall_join (content r)).
Proof.
  unfold assign_clean. rewrite lookup_map. intros H.
  destruct (df !! i) as [r|]; [|discriminate].
  exists r. simpl in H. by injection H as <-.
Qed.

Lemma lookup_cleaner (limit : Z) (df : DataFrame) (i : nat) (r' : Row) :
  cleaner limit df !! i = Some r' -> assign_clean df !! i = Some r'.
Proof.
  unfold cleaner. destruct (0 <? limit) eqn:E; [|done].
  apply Z.ltb_lt in E. rewrite slice_prefix by done.
  intros H. by apply lookup_take_Some in H as [H _].
Qed.

Lemma cleaner_retains (limit : Z) (df : DataFrame) (i : nat) (r : Row) :
  assign_clean df !! i = Some r ->
  limit <= 0 \/ Z.of_nat i < limit ->
  cleaner limit df !! i = Some r.
Proof.
  intros Hr Hi. unfold cleaner. destruct (0 <? limit) eqn:E; [|done].
  apply Z.ltb_lt in E. rewrite slice_prefix by done.
  apply lookup_take_Some. split; [done|].
  apply lookup_lt_Some in Hr. lia.
Qed.

(** C5 (amended). In a table whose content column holds at least one
    text, every record gets a clean value, in the table the cleaner updates
    and, when the limit is not positive or the record's index is below the
    limit, at the same index of the table it returns. For a record whose content field is a text, the clean value is
    one string: the matches of the pattern [A-Za-z0-9-]{3,50} in the content
    (read from the left, each as long as it can be up to 50 characters, not
    overlapping, as findall gives them), in their order of occurrence,
    joined by single spaces; every such token consists of ASCII letters,
    digits and hyphens only and has between 3 and 50 characters. For a
    record whose content field is missing (NaN), the clean value is missing
    too. *)
Theorem cleaner_clean_text (limit : Z) (df : DataFrame) (i : nat) (r0 : Row) :
  Exists (fun r => content r <> NaN) df ->
  df !! i = Some r0 ->
  exists r : Row,
    assign_clean df !! i = Some r
    /\ (limit <= 0 \/ Z.of_nat i < limit -> cleaner limit df !! i = Some r)
    /\ (forall s, content r0 = Str s ->
          exists tokens : list string,
            clean r = Some (Str (Py.join " " tokens))
            /\ tokens = Pattern.findall s
            /\ occurrences s tokens
            /\ forall m, m ∈ tokens -> token m)
    /\ (content r0 = NaN -> clean r = Some NaN).
Proof.
  intros _ H0.
  destruct (assign_clean df !! i) as [r|] eqn:Hr.
  - destruct (lookup_assign_clean _ _ _ Hr) as (r0' & H0' & _ & _ & _ & Hc).
    rewrite H0 in H0'. injection H0' as <-.
    exists r. split; [done|]. split; [by apply cleaner_retains|].
    split.
    + intros s Hs. rewrite Hs in Hc. exists (Pattern.findall s).
      split; [done|]. split; [done|].
      split; [apply findall_occurrences|]. intros m. apply findall_tokens.
    + intros Hs. by rewrite Hs in Hc.
  - apply lookup_ge_None in Hr. rewrite length_assign_clean in Hr.
    apply lookup_lt_Some in H0. lia.
Qed.

Lemma cleaner_clean_text_witness :
  exists r : Row,
    assign_clean [Sample.row "It's a well-known URL"; Sample.row "second row"]
      !! 0%nat = Some r
    /\ (1 <= 0 \/ Z.of_nat 0 < 1 ->
        cleaner 1 [Sample.row "It's a well-known URL"; Sample.row "second row"]
          !! 0%nat = Some r)
    /\ (forall s, Str "It's a well-known URL" = Str s ->
          exists tokens : list string,
            clean r = Some (Str (Py.join " " tokens))
            /\ tokens = Pattern.findall s
            /\ occurrences s tokens
            /\ forall m, m ∈ tokens -> token m)
    /\ (Str "It's a well-known URL" = NaN -> clean r = Some NaN).
Proof.
  apply (cleaner_clean_text 1
           [Sample.row "It's a well-known URL"; Sample.row "second row"] 0
           (Sample.row "It's a well-known URL")).
  - apply Exists_cons_hd. discriminate.
  - reflexivity.
Defined.

(** C5, as stated for every record, fails for a record whose content field
    is missing: in a table of two records, the first with a text and the
    second with no content, the clean value of the second is the missing
    value, not a string. *)
Lemma cleaner_missing_content_counterexample :
  ~ (forall (limit : Z) (df : DataFrame) (i : nat) (r : Row),
       cleaner limit df !! i = Some r ->
       exists t : string, clean r = Some (Str t)).
Proof.
  intros H.
  destruct (H 0 [ Sample.row "The cat sat.";
                  {| date := "2016-06-30"; headline := "No comment";
                     content := NaN; clean := None |} ] 1%nat
              {| date := "2016-06-30"; headline := "No comment";
                 content := NaN; clean := Some NaN |} eq_refl) as (t & Ht).
  discriminate Ht.
Qed.



(** C9. The cleaner only adds the clean column: whatever the limit, row i
    of the returned table has the date, the headline and the content of
    row i of the input table. *)
Theorem cleaner_frame (limit : Z) (df : DataFrame) (i : nat) (r' : Row) :
  cleaner limit df !! i = Some r' ->
  exists r, df !! i = Some r
    /\ date r' = date r /\ headline r' = headline r
    /\ content r' = content r.
Proof.
  intros H. apply lookup_cleaner, lookup_assign_clean in H
    as (r & Hr & Hd & Hh & Hc & _).
  by exists r.
Qed.

Lemma cleaner_frame_witness :
  exists r,
    [Sample.row "It's a well-known URL"; Sample.row "second row"] !! 0%nat
    = Some r
    /\ "2016-06-30"%string = date r /\ ""%string = headline r
    /\ Str "It's a well-known URL" = content r.
Proof.
  apply (cleaner_frame 1
           [Sample.row "It's a well-known URL"; Sample.row "second row"] 0
           {| date := "2016-06-30"; headline := "";
              content := Str "It's a well-known URL";
              clean := Some (Str "well-known URL") |}).
  vm_compute. reflexivity.
Defined.

(** ** Lemma lists *)

Lemma comprehension_app {A B : Type} (f : A -> B) (p : A -> bool)
    (xs ys : list A) :
  Py.comprehension f p (xs ++ ys)
  = Py.comprehension f p xs ++ Py.comprehension f p ys.
Proof.
  induction xs as [|x xs IH]; simpl; [done|].
  destruct (p x); simpl; by rewrite IH.
Qed.


Lemma keep_true (stopwords : gset string) (tok : Token) :
  keep stopwords tok = true
  <-> is_alpha tok = true /\ Py.lower (text tok) ∉ stopwords.
Proof.
  unfold keep. rewrite andb_true_iff, negb_true_iff, bool_decide_eq_false.
  done.
Qed.

(** *** Lowercasing within ASCII *)

Lemma ascii_byte_lower (c : ascii) :
  (N_of_ascii c <? 128)%N = true ->
  Py.encode (Unicode.to_lower_full (N_of_ascii c))
  = String (ascii_lower_char c) EmptyString
  /\ (N_of_ascii c =? Unicode.capital_sigma)%N = false
  /\ Unicode.is_uppercase (N_of_ascii c) = Py.is_upper c
  /\ (N_of_ascii (ascii_lower_char c) <? 128)%N = true
  /\ Py.is_upper (ascii_lower_char c) = false.
Proof.
  destruct c as [[] [] [] [] [] [] [] []]; intros H;
    (discriminate H || (vm_compute; repeat split)).
Qed.

Lemma is_ascii_cons (c : ascii) (s : string) :
  Py.is_ascii (String c s) = true
  <-> (N_of_ascii c <? 128)%N = true /\ Py.is_ascii s = true.
Proof. unfold Py.is_ascii. simpl. apply andb_true_iff. Qed.

Lemma decode_ascii_cons (c : ascii) (s : string) :
  (N_of_ascii c <? 128)%N = true ->
  Py.decode (String c s) = N_of_ascii c :: Py.decode s.
Proof. intros H. simpl. by rewrite H. Qed.

Lemma encode_app (a b : list N) :
  Py.encode (a ++ b) = Py.encode a +:+ Py.encode b.
Proof.
  induction a as [|c a IH]; [done|]. simpl.
  by rewrite IH, string_app_assoc.
Qed.

Lemma lower_from_ascii (before : list N) (s : string) :
  Py.is_ascii s = true ->
  Py.encode (Py.lower_from before (Py.decode s)) = ascii_lower s.
Proof.
  revert before. induction s as [|c s IH]; intros before Hs; [done|].
  apply is_ascii_cons in Hs as [Hc Hs].
  rewrite (decode_ascii_cons c s Hc).
  destruct (ascii_byte_lower c Hc) as (Henc & Hsig & _).
  cbn [Py.lower_from]. rewrite Hsig, encode_app, Henc, (IH _ Hs). done.
Qed.

Lemma lower_ascii (s : string) :
  Py.is_ascii s = true -> Py.lower s = ascii_lower s.
Proof. apply lower_from_ascii. Qed.


Lemma no_upper_ascii (s : string) :
  Py.is_ascii s = true ->
  no_upper s
  = forallb (fun c => negb (Py.is_upper c)) (list_ascii_of_string s).
Proof.
  unfold no_upper. induction s as [|c s IH]; [done|]. intros Hs.
  apply is_ascii_cons in Hs as [Hc Hs].
  rewrite (decode_ascii_cons c s Hc).
  destruct (ascii_byte_lower c Hc) as (_ & _ & Hup & _).
  simpl. by rewrite Hup, (IH Hs).
Qed.


Lemma ascii_lower_fixed (s : string) :
  forallb (fun c => negb (Py.is_upper c)) (list_ascii_of_string s) = true ->
  ascii_lower s = s.
Proof.
  induction s as [|c s IH]; simpl; [done|].
  rewrite andb_true_iff, negb_true_iff. intros [Hc Hs].
  unfold ascii_lower_char. by rewrite Hc, IH.
Qed.



(** *** Lowercasing and the capital sigma *)

Lemma lower_from_each (before l : list N) :
  existsb (N.eqb Unicode.capital_sigma) l = false ->
  Py.lower_from before l = flat_map Unicode.to_lower_full l.
Proof.
  revert before. induction l as [|c l IH]; intros before Hl; [done|].
  cbn [existsb] in Hl. apply orb_false_iff in Hl as [Hc Hl].
  cbn [Py.lower_from flat_map]. rewrite N.eqb_sym, Hc. by rewrite IH.
Qed.

Lemma lower_without_sigma (s : string) :
  has_capital_sigma s = false -> Py.lower s = Py.lower_each s.
Proof.
  intros Hs. unfold Py.lower, Py.lower_each. by rewrite lower_from_each.
Qed.

Lemma elem_of_flatten {A : Type} (xss : list (list A)) (x : A) :
  x ∈ flatten xss -> exists xs, xs ∈ xss /\ x ∈ xs.
Proof.
  induction xss as [|xs xss IH]; simpl; intros H.
  - by apply elem_of_nil in H.
  - apply elem_of_app in H as [H | H].
    + exists xs. split; [apply elem_of_cons; by left | done].
    + destruct (IH H) as (xs' & Hin & Hx).
      exists xs'. split; [apply elem_of_cons; by right | done].
Qed.

Lemma elem_of_map {A B : Type} (f : A -> B) (l : list A) (y : B) :
  y ∈ map f l -> exists x, y = f x /\ x ∈ l.
Proof. intros H. by apply (list_elem_of_fmap_1 f l y). Qed.




Section Lowercase.

Variable nlp : string -> Doc.
Variable stopwords : gset string.
Variable df_preproc : DataFrame.




End Lowercase.




(** ** The stopword file *)

Section StopwordFacts.

Let nl : string := String Py.newline EmptyString.

Lemma char_in_newline (c : ascii) :
  Py.char_in c (String Py.newline EmptyString) = Ascii.eqb c Py.newline.
Proof. unfold Py.char_in. simpl. by rewrite orb_false_r. Qed.

Lemma single_line_cons (c : ascii) (s : string) :
  single_line (String c s) = true
  <-> Ascii.eqb Py.newline c = false /\ single_line s = true.
Proof.
  unfold single_line, Py.char_in. simpl.
  rewrite negb_orb, andb_true_iff, negb_true_iff. done.
Qed.

Lemma single_line_app (a b : string) :
  single_line (a +:+ b) = single_line a && single_line b.
Proof.
  induction a as [|c a IH]; [done|]. rewrite string_app_cons.
  unfold single_line, Py.char_in in *. simpl.
  rewrite !negb_orb, IH. by rewrite andb_assoc.
Qed.

Lemma rstrip_line (body : string) :
  single_line body = true ->
  Py.rstrip nl (body +:+ nl) = body /\ Py.rstrip nl body = body.
Proof.
  induction body as [|c body IH]; intros Hs.
  - by vm_compute.
  - apply single_line_cons in Hs as [Hc Hs]. destruct (IH Hs) as [IH1 IH2].
    rewrite string_app_cons. simpl. rewrite IH1, IH2.
    subst nl. rewrite char_in_newline, Ascii.eqb_sym, Hc.
    by destruct body.
Qed.

Lemma lstrip_line (body : string) :
  single_line body = true -> Py.lstrip nl body = body.
Proof.
  destruct body as [|c body]; [done|]. intros Hs.
  apply single_line_cons in Hs as [Hc _]. simpl.
  subst nl. by rewrite char_in_newline, Ascii.eqb_sym, Hc.
Qed.

Lemma strip_line (body : string) :
  single_line body = true ->
  Py.strip nl (body +:+ nl) = body /\ Py.strip nl body = body.
Proof.
  intros Hs. unfold Py.strip. destruct (rstrip_line body Hs) as [-> ->].
  by rewrite lstrip_line.
Qed.

(** A line of a file: a text without line feed, followed by a line feed, or
    not empty. *)
Lemma readlines_shape (s line : string) :
  line ∈ Py.readlines s ->
  exists body, single_line body = true
    /\ (line = body +:+ nl \/ (line = body /\ body <> ""%string)).
Proof.
  revert line. induction s as [|c s IH]; simpl; intros line Hin.
  - by apply elem_of_nil in Hin.
  - destruct (Ascii.eqb c Py.newline) eqn:Ec.
    + apply elem_of_cons in Hin as [-> | Hin]; [|by apply IH].
      apply Ascii.eqb_eq in Ec as ->. exists ""%string. split; [done|].
      by left.
    + destruct (Py.readlines s) as [|l ls] eqn:El.
      * apply list_elem_of_singleton in Hin as ->.
        exists (String c ""). split; [|by right].
        apply single_line_cons. by rewrite Ascii.eqb_sym.
      * apply elem_of_cons in Hin as [-> | Hin].
        -- destruct (IH l) as (body & Hb & Hl);
             [apply elem_of_cons; by left|].
           exists (String c body). split.
           { apply single_line_cons. by rewrite Ascii.eqb_sym. }
           destruct Hl as [-> | [-> _]]; [by left | by right].
        -- apply IH. apply elem_of_cons. by right.
Qed.

Lemma readlines_line (w rest : string) :
  single_line w = true ->
  Py.readlines (w +:+ String Py.newline rest)
  = (w +:+ nl) :: Py.readlines rest.
Proof.
  induction w as [|c w IH]; intros Hs.
  - reflexivity.
  - apply single_line_cons in Hs as [Hc Hs].
    rewrite !string_app_cons. simpl.
    rewrite Ascii.eqb_sym, Hc, (IH Hs). done.
Qed.

Lemma readlines_last (w : string) :
  single_line w = true -> w <> ""%string -> Py.readlines w = [w].
Proof.
  induction w as [|c w IH]; intros Hs Hne; [done|].
  apply single_line_cons in Hs as [Hc Hs]. simpl.
  rewrite Ascii.eqb_sym, Hc.
  destruct w as [|d w]; [done|]. by rewrite IH.
Qed.

Lemma readlines_one_per_line (ws : list string) (last : string) :
  Forall (fun w => single_line w = true) ws ->
  single_line last = true ->
  Py.readlines (one_per_line ws +:+ last)
  = map (fun w => w +:+ nl) ws
    ++ match last with EmptyString => [] | _ => [last] end.
Proof.
  intros Hws Hlast. induction Hws as [|w ws Hw Hws IH]; simpl.
  - change ("" +:+ last) with last. destruct last as [|c l]; [done|].
    by apply readlines_last.
  - replace ((w +:+ String Py.newline (one_per_line ws)) +:+ last)
      with (w +:+ String Py.newline (one_per_line ws +:+ last)).
    + by rewrite readlines_line, IH.
    + clear. induction w as [|c w IHw]; [done|].
      by rewrite !string_app_cons, IHw.
Qed.

Lemma elem_of_get_stopwords (file w : string) :
  w ∈ get_stopwords file
  <-> exists line, line ∈ Py.readlines file /\ w = Py.strip nl line.
Proof.
  unfold get_stopwords. rewrite append_each_map. simpl.
  rewrite elem_of_list_to_set. split.
  - intros H. apply elem_of_map in H as (line & -> & Hin). by exists line.
  - intros (line & Hin & ->). by apply (list_elem_of_fmap_2 _ _ _ Hin).
Qed.

Lemma forallb_chars_app (P : ascii -> bool) (a b : string) :
  forallb P (list_ascii_of_string (a +:+ b))
  = forallb P (list_ascii_of_string a) && forallb P (list_ascii_of_string b).
Proof.
  induction a as [|c a IH]; [done|]. rewrite string_app_cons. simpl.
  by rewrite IH, andb_assoc.
Qed.

Lemma readlines_forallb (P : ascii -> bool) (s line : string) :
  forallb P (list_ascii_of_string s) = true ->
  line ∈ Py.readlines s ->
  forallb P (list_ascii_of_string line) = true.
Proof.
  revert line. induction s as [|c s IH]; simpl; intros line Hs Hin.
  - by apply elem_of_nil in Hin.
  - apply andb_true_iff in Hs as [Hc Hs].
    destruct (Ascii.eqb c Py.newline).
    + apply elem_of_cons in Hin as [-> | Hin]; [|by apply IH].
      simpl. by rewrite Hc.
    + destruct (Py.readlines s) as [|l ls] eqn:El.
      * apply list_elem_of_singleton in Hin as ->. simpl. by rewrite Hc.
      * apply elem_of_cons in Hin as [-> | Hin].
        -- simpl. rewrite Hc. simpl.
           apply (IH l Hs). apply elem_of_cons. by left.
        -- apply (IH _ Hs). apply elem_of_cons. by right.
Qed.

Lemma ascii_without_sigma (s : string) :
  Py.is_ascii s = true -> has_capital_sigma s = false.
Proof.
  unfold has_capital_sigma. induction s as [|c s IH]; [done|]. intros Hs.
  apply is_ascii_cons in Hs as [Hc Hs].
  rewrite (decode_ascii_cons c s Hc).
  destruct (ascii_byte_lower c Hc) as (_ & Hsig & _).
  cbn [existsb]. by rewrite N.eqb_sym, Hsig, (IH Hs).
Qed.

End StopwordFacts.

(** X1. No entry of the stopword set has a line feed in it: each entry is
    one line of the file, without the line feed that ends it. *)
Theorem get_stopwords_single_line (file w : string) :
  w ∈ get_stopwords file ->
  single_line w = true
  /\ exists line, line ∈ Py.readlines file
       /\ (line = w +:+ String Py.newline EmptyString \/ line = w).
Proof.
  intros H. apply elem_of_get_stopwords in H as (line & Hin & ->).
  destruct (readlines_shape _ _ Hin) as (body & Hb & Hl).
  destruct (strip_line body Hb) as [S1 S2].
  destruct Hl as [-> | [-> _]].
  - rewrite S1. split; [done|]. exists (body +:+ String Py.newline "").
    split; [done | by left].
  - rewrite S2. split; [done|]. exists body. split; [done | by right].
Qed.

Lemma get_stopwords_single_line_witness :
  single_line "and" = true
  /\ exists line, line ∈ Py.readlines (one_per_line ["the"; "and"]%string)
       /\ (line = "and" +:+ String Py.newline EmptyString
           \/ line = "and"%string).
Proof.
  apply (get_stopwords_single_line (one_per_line ["the"; "and"]%string)).
  apply elem_of_get_stopwords. exists ("and" +:+ String Py.newline "").
  split; [|reflexivity]. apply list_elem_of_In. vm_compute. tauto.
Defined.

(** X2. A stopword file of ASCII text without uppercase letters gives a
    set all of whose entries are ASCII and lowercase: each has no uppercase
    character and is its own lowercase form, as a whole and character by
    character. *)
Theorem get_stopwords_lowercase (file w : string) :
  Py.is_ascii file = true ->
  no_upper file = true ->
  w ∈ get_stopwords file ->
  Py.is_ascii w = true /\ no_upper w = true
  /\ Py.lower w = w /\ Py.lower_each w = w.
Proof.
  intros Hascii Hfile H.
  apply elem_of_get_stopwords in H as (line & Hin & ->).
  rewrite no_upper_ascii in Hfile by done. unfold Py.is_ascii in Hascii.
  pose proof (readlines_forallb _ _ _ Hascii Hin) as Hline1.
  pose proof (readlines_forallb _ _ _ Hfile Hin) as Hline2.
  destruct (readlines_shape _ _ Hin) as (body & Hb & Hl).
  destruct (strip_line body Hb) as [S1 S2].
  assert (Hw : Py.strip (String Py.newline "") line = body)
    by (destruct Hl as [-> | [-> _]]; done).
  assert (Hbody : Py.is_ascii body = true
                  /\ forallb (fun c => negb (Py.is_upper c))
                       (list_ascii_of_string body) = true).
  { destruct Hl as [-> | [-> _]]; [|done].
    rewrite forallb_chars_app in Hline1, Hline2.
    apply andb_true_iff in Hline1 as [? _].
    by apply andb_true_iff in Hline2 as [? _]. }
  destruct Hbody as [Hb1 Hb2]. rewrite Hw.
  assert (Hlow : Py.lower body = body)
    by (rewrite lower_ascii by done; by apply ascii_lower_fixed).
  split; [done|]. split; [by rewrite no_upper_ascii|]. split; [done|].
  rewrite <- lower_without_sigma; [done | by apply ascii_without_sigma].
Qed.

Lemma get_stopwords_lowercase_witness :
  Py.is_ascii "the" = true /\ no_upper "the" = true
  /\ Py.lower "the" = "the"%string /\ Py.lower_each "the" = "the"%string.
Proof.
  apply (get_stopwords_lowercase (one_per_line ["the"; "and"]%string)).
  - vm_compute. reflexivity.
  - vm_compute. reflexivity.
  - apply elem_of_get_stopwords. exists ("the" +:+ String Py.newline "").
    split; [|reflexivity]. apply list_elem_of_In. vm_compute. tauto.
Defined.

Lemma no_carriage_return_cons (c : ascii) (s : string) :
  no_carriage_return (String c s) = true
  <-> Ascii.eqb Py.carriage_return c = false
      /\ no_carriage_return s = true.
Proof.
  unfold no_carriage_return, Py.char_in. simpl.
  rewrite negb_orb, andb_true_iff, negb_true_iff. done.
Qed.

Lemma universal_newlines_app (w rest : string) :
  no_carriage_return w = true ->
  Py.universal_newlines (w +:+ rest) = w +:+ Py.universal_newlines rest.
Proof.
  induction w as [|c w IH]; intros Hw; [done|].
  apply no_carriage_return_cons in Hw as [Hc Hw].
  rewrite !string_app_cons. simpl.
  rewrite Ascii.eqb_sym, Hc, (IH Hw). done.
Qed.

Lemma universal_newlines_id (w : string) :
  no_carriage_return w = true -> Py.universal_newlines w = w.
Proof.
  intros Hw. rewrite <- (string_app_nil_r w) at 1.
  rewrite universal_newlines_app by done. simpl. apply string_app_nil_r.
Qed.

Lemma universal_newlines_lines (ws : list string) (last : string) :
  Forall (fun w => no_carriage_return w = true) ws ->
  no_carriage_return last = true ->
  Py.universal_newlines (one_per_line ws +:+ last) = one_per_line ws +:+ last
  /\ Py.universal_newlines (one_per_line_crlf ws +:+ last)
     = one_per_line ws +:+ last.
Proof.
  intros Hws Hlast. induction Hws as [|w ws Hw _ [IH1 IH2]].
  - change ("" +:+ last) with last. split; by apply universal_newlines_id.
  - cbn [one_per_line one_per_line_crlf].
    rewrite !string_app_assoc, !string_app_cons.
    rewrite !universal_newlines_app by done. split.
    + f_equal. change (Py.universal_newlines
                         (String Py.newline (one_per_line ws +:+ last)))
        with (String Py.newline
                (Py.universal_newlines (one_per_line ws +:+ last))).
      by rewrite IH1.
    + f_equal.
      change (Py.universal_newlines
                (String Py.carriage_return
                   (String Py.newline (one_per_line_crlf ws +:+ last))))
        with (String Py.newline
                (Py.universal_newlines (one_per_line_crlf ws +:+ last))).
      by rewrite IH2.
Qed.

Lemma get_stopwords_lines (ws : list string) (last : string) :
  Forall (fun w => single_line w = true) ws ->
  single_line last = true ->
  get_stopwords (one_per_line ws +:+ last)
  = list_to_set ws
    ∪ match last with EmptyString => ∅ | _ => {[ last ]} end.
Proof.
  intros Hws Hlast. apply set_eq. intros w.
  rewrite elem_of_get_stopwords, (readlines_one_per_line ws last Hws Hlast).
  rewrite elem_of_union, elem_of_list_to_set. split.
  - intros (line & Hin & ->). apply elem_of_app in Hin as [Hin | Hin].
    + left. apply elem_of_map in Hin as (w & -> & Hw).
      rewrite Forall_forall in Hws.
      by rewrite (proj1 (strip_line w (Hws w Hw))).
    + right. destruct last as [|c l]; [by apply elem_of_nil in Hin|].
      apply list_elem_of_singleton in Hin as ->.
      rewrite (proj2 (strip_line _ Hlast)). by apply elem_of_singleton.
  - intros [Hw | Hw].
    + exists (w +:+ String Py.newline ""). split.
      * apply elem_of_app. left.
        by apply (list_elem_of_fmap_2
                    (fun w => w +:+ String Py.newline "") _ _ Hw).
      * rewrite Forall_forall in Hws.
        by rewrite (proj1 (strip_line w (Hws w Hw))).
    + destruct last as [|c l]; [by apply elem_of_empty in Hw|].
      apply elem_of_singleton in Hw as ->. exists (String c l). split.
      * apply elem_of_app. right. by apply list_elem_of_singleton.
      * by rewrite (proj2 (strip_line _ Hlast)).
Qed.

(** X3. Reading in text mode a file written one word per line gives exactly
    the set of those words, for words with neither line feed nor carriage
    return, whether the lines of the file end in a line feed or in a
    carriage return and a line feed: duplicates collapse, an empty line
    gives the empty string as an entry, and the line end after the last
    word is optional. *)
Theorem get_stopwords_one_per_line (ws : list string) (last : string) :
  Forall (fun w => single_line w = true) ws ->
  Forall (fun w => no_carriage_return w = true) ws ->
  single_line last = true ->
  no_carriage_return last = true ->
  get_stopwords (Py.universal_newlines (one_per_line ws +:+ last))
  = list_to_set ws
    ∪ match last with EmptyString => ∅ | _ => {[ last ]} end
  /\ get_stopwords (Py.universal_newlines (one_per_line_crlf ws +:+ last))
     = list_to_set ws
       ∪ match last with EmptyString => ∅ | _ => {[ last ]} end.
Proof.
  intros Hws Hcr Hlast Hlastcr.
  destruct (universal_newlines_lines ws last Hcr Hlastcr) as [-> ->].
  split; by apply get_stopwords_lines.
Qed.

Lemma get_stopwords_one_per_line_witness :
  get_stopwords
    (Py.universal_newlines (one_per_line ["the"; ""; "the"]%string +:+ "and"))
  = list_to_set ["the"; ""; "the"]%string ∪ {[ "and"%string ]}
  /\ get_stopwords
       (Py.universal_newlines
          (one_per_line_crlf ["the"; ""; "the"]%string +:+ "and"))
     = list_to_set ["the"; ""; "the"]%string ∪ {[ "and"%string ]}.
Proof.
  apply (get_stopwords_one_per_line ["the"; ""; "the"]%string "and").
  - repeat constructor.
  - repeat constructor.
  - reflexivity.
  - reflexivity.
Defined.

(** ** Stopwords and lemma lists *)

Lemma comprehension_ext {A B : Type} (f : A -> B) (p q : A -> bool)
    (l : list A) :
  (forall x, p x = q x) -> Py.comprehension f p l = Py.comprehension f q l.
Proof.
  intros Hpq. induction l as [|x l IH]; simpl; [done|].
  by rewrite Hpq, IH.
Qed.

Lemma contains_true (x : string) (l : list string) :
  Py.contains x l = true <-> x ∈ l.
Proof.
  unfold Py.contains. rewrite existsb_exists, list_elem_of_In. split.
  - intros (y & Hy & Heq). by apply String.eqb_eq in Heq as ->.
  - intros Hx. exists x. split; [done | apply String.eqb_refl].
Qed.

Lemma keep_list_set (l : list string) (tok : Token) :
  keep_list l tok = keep (list_to_set l) tok.
Proof.
  unfold keep_list, keep. f_equal. f_equal.
  apply eq_true_iff_eq. rewrite contains_true, bool_decide_eq_true.
  by rewrite elem_of_list_to_set.
Qed.

(** X4. Rebinding the stopwords to a list, as the notebook does for its
    timing comparison, changes no lemma list: [lemmatize] with the list of
    the elements of a set returns what it returns with the set, and with any
    list what it returns with the set of that list's elements. *)
Theorem lemmatize_list_same (nlp : string -> Doc) (stopwords : gset string)
    (l : list string) (t : string) :
  lemmatize_list nlp (list_of_stopwords stopwords) t
  = lemmatize nlp stopwords t
  /\ lemmatize_list nlp l t = lemmatize nlp (list_to_set l) t.
Proof.
  assert (Hl : forall l', lemmatize_list nlp l' t
                          = lemmatize nlp (list_to_set l') t).
  { intros l'. unfold lemmatize_list, lemmatize.
    apply comprehension_ext. apply keep_list_set. }
  split; [|apply Hl]. rewrite Hl. unfold list_of_stopwords.
  by rewrite list_to_set_elements_L.
Qed.

(** X5. A token whose lowercased text is a line of the stopword file (the
    line taken without its line feed) never reaches the lemma list, whether
    it is alphabetic or not and whatever its lemma. *)
Theorem stopword_line_dropped (file line : string) (pre post : Doc)
    (tok : Token) :
  line ∈ Py.readlines file ->
  Py.lower (text tok) = Py.strip (String Py.newline EmptyString) line ->
  lemmatize_pipe (get_stopwords file) (pre ++ tok :: post)
  = lemmatize_pipe (get_stopwords file) pre
    ++ lemmatize_pipe (get_stopwords file) post.
Proof.
  intros Hline Htok. unfold lemmatize_pipe.
  rewrite comprehension_app. simpl.
  destruct (keep (get_stopwords file) tok) eqn:E; [|done].
  apply keep_true in E as [_ Hnot]. destruct Hnot.
  apply elem_of_get_stopwords. by exists line.
Qed.

Lemma stopword_line_dropped_witness :
  lemmatize_pipe (get_stopwords (one_per_line ["the"; "and"]%string))
    (Sample.nlp "cat" ++ {| text := "And"; lemma_ := "and";
                            is_alpha := true |} :: Sample.nlp "dog")
  = lemmatize_pipe (get_stopwords (one_per_line ["the"; "and"]%string))
      (Sample.nlp "cat")
    ++ lemmatize_pipe (get_stopwords (one_per_line ["the"; "and"]%string))
         (Sample.nlp "dog").
Proof.
  apply (stopword_line_dropped (one_per_line ["the"; "and"]%string)
           ("and" +:+ String Py.newline "")).
  - apply list_elem_of_In. vm_compute. tauto.
  - reflexivity.
Defined.

Lemma lemmatize_pipe_sublist (stopwords : gset string) (doc : Doc) :
  lemmatize_pipe stopwords doc
  `sublist_of` map (fun tok => Py.lower (lemma_ tok)) doc.
Proof.
  unfold lemmatize_pipe. induction doc as [|tok doc IH]; simpl; [constructor|].
  destruct (keep stopwords tok); by constructor.
Qed.

Lemma lemmatize_pipe_more_stopwords (stopwords1 stopwords2 : gset string)
    (doc : Doc) :
  stopwords1 ⊆ stopwords2 ->
  lemmatize_pipe stopwords2 doc `sublist_of` lemmatize_pipe stopwords1 doc.
Proof.
  intros Hsub. unfold lemmatize_pipe.
  induction doc as [|tok doc IH]; simpl; [constructor|].
  destruct (keep stopwords2 tok) eqn:E2.
  - assert (keep stopwords1 tok = true) as ->; [|by constructor].
    apply keep_true in E2 as [Ha Hn]. apply keep_true.
    split; [done|]. intros Hin. apply Hn. by apply Hsub.
  - destruct (keep stopwords1 tok); [by constructor | done].
Qed.

(** X6. Adding stopwords only removes lemmas: with a larger stopword set
    the lemma list of a document is a subsequence of the one with the
    smaller set, and every lemma list is a subsequence of the lowercased
    lemmas of the document's tokens, so it is never longer than the
    document. *)
Theorem lemmatize_pipe_monotone (stopwords1 stopwords2 : gset string)
    (doc : Doc) :
  stopwords1 ⊆ stopwords2 ->
  lemmatize_pipe stopwords2 doc `sublist_of` lemmatize_pipe stopwords1 doc
  /\ lemmatize_pipe stopwords1 doc
     `sublist_of` map (fun tok => Py.lower (lemma_ tok)) doc
  /\ (length (lemmatize_pipe stopwords1 doc) <= length doc)%nat.
Proof.
  intros Hsub.
  split; [by apply lemmatize_pipe_more_stopwords|].
  split; [apply lemmatize_pipe_sublist|].
  pose proof (sublist_length _ _ (lemmatize_pipe_sublist stopwords1 doc))
    as Hlen.
  by rewrite length_map in Hlen.
Qed.

Lemma lemmatize_pipe_monotone_witness :
  lemmatize_pipe {[ "the"%string; "cat"%string ]} (Sample.nlp "The cat sat")
  `sublist_of` lemmatize_pipe Sample.stopwords (Sample.nlp "The cat sat").
Proof.
  apply (lemmatize_pipe_monotone Sample.stopwords
           {[ "the"%string; "cat"%string ]} (Sample.nlp "The cat sat")).
  unfold Sample.stopwords. set_solver.
Defined.

(** ** Tokens and clean texts *)

Section CleanTextFacts.

Import Pattern.

Lemma findall_unfold (s : string) :
  findall s
  = match s with
    | EmptyString => []
    | String c s' =>
        match match_at s with
        | Some (m, rest) => m :: findall rest
        | None => findall s'
        end
    end.
Proof.
  funelim (findall s); [done | |];
    match goal with E : match_at _ = _ |- _ => by rewrite E end.
Qed.

Lemma string_length_app (a b : string) :
  String.length (a +:+ b) = (String.length a + String.length b)%nat.
Proof.
  induction a as [|c a IH]; [done|]. rewrite string_app_cons. simpl.
  by rewrite IH.
Qed.

Lemma span_token (n : nat) (m rest : string) :
  all_in_class m = true -> (String.length m <= n)%nat -> boundary rest ->
  span n (m +:+ rest) = (m, rest).
Proof.
  revert n. induction m as [|c m IH]; intros n Hcls Hlen Hb.
  - change ("" +:+ rest) with rest.
    destruct n as [|n]; [by destruct rest|].
    destruct Hb as [-> | (c & r & -> & Hc)]; [done|]. simpl. by rewrite Hc.
  - unfold all_in_class in Hcls. simpl in Hcls.
    apply andb_true_iff in Hcls as [Hc Hcls].
    destruct n as [|n]; [simpl in Hlen; lia|].
    rewrite string_app_cons. simpl. rewrite Hc.
    rewrite (IH n); [done | done | simpl in Hlen; lia | done].
Qed.

Lemma match_at_token (m rest : string) :
  all_in_class m = true -> (3 <= String.length m <= 50)%nat ->
  boundary rest ->
  match_at (m +:+ rest) = Some (m, rest).
Proof.
  intros Hcls Hlen Hb. unfold match_at.
  rewrite span_token; [|done | lia | done].
  by rewrite (proj2 (Nat.leb_le 3 (String.length m))) by lia.
Qed.

Lemma findall_token_then (m rest : string) :
  all_in_class m = true -> (3 <= String.length m <= 50)%nat ->
  boundary rest ->
  findall (m +:+ rest) = m :: findall rest.
Proof.
  intros Hcls Hlen Hb. rewrite findall_unfold.
  rewrite (match_at_token m rest Hcls Hlen Hb).
  destruct m as [|c m]; [simpl in Hlen; lia|]. by rewrite string_app_cons.
Qed.

Lemma findall_space (s : string) : findall (String " " s) = findall s.
Proof. by rewrite findall_unfold. Qed.

Lemma findall_join (tokens : list string) :
  Forall (fun m => all_in_class m = true
                   /\ (3 <= String.length m <= 50)%nat) tokens ->
  findall (Py.join " " tokens) = tokens.
Proof.
  induction 1 as [|m ts [Hcls Hlen] Hts IH]; [done|].
  destruct ts as [|t ts].
  - simpl. rewrite <- (string_app_nil_r m) at 1.
    rewrite findall_token_then; [done..|by left].
  - change (Py.join " " (m :: t :: ts))
      with (m +:+ String " " (Py.join " " (t :: ts))).
    rewrite findall_token_then; [|done..|].
    + by rewrite findall_space, IH.
    + right. by exists " "%char, (Py.join " " (t :: ts)).
Qed.

Lemma findall_count (s : string) :
  (total_length (findall s) <= String.length s)%nat
  /\ (3 * length (findall s) <= total_length (findall s))%nat.
Proof.
  funelim (findall s).
  - simpl. lia.
  - match goal with E : match_at _ = Some _ |- _ =>
      destruct (match_at_spec _ _ _ E) as (Happ & _ & Hlen & _) end.
    rewrite Happ, string_length_app. simpl. lia.
  - simpl. lia.
Qed.

Lemma clean_chars_app (a b : string) :
  forallb clean_char (Py.chars (a +:+ b))
  = forallb clean_char (Py.chars a) && forallb clean_char (Py.chars b).
Proof.
  induction a as [|c a IH]; [done|]. rewrite string_app_cons. simpl.
  by rewrite IH, andb_assoc.
Qed.

Lemma clean_chars_token (m : string) :
  all_in_class m = true -> forallb clean_char (Py.chars m) = true.
Proof.
  unfold all_in_class. induction m as [|c m IH]; simpl; [done|].
  rewrite !andb_true_iff. intros [Hc Hm]. split; [|by apply IH].
  unfold clean_char. by rewrite Hc.
Qed.

Lemma clean_chars_join (tokens : list string) :
  Forall (fun m => all_in_class m = true) tokens ->
  forallb clean_char (Py.chars (Py.join " " tokens)) = true.
Proof.
  induction 1 as [|m ts Hm Hts IH]; [done|].
  destruct ts as [|t ts]; [by apply clean_chars_token|].
  change (Py.join " " (m :: t :: ts))
    with (m +:+ String " " (Py.join " " (t :: ts))).
  rewrite clean_chars_app, (clean_chars_token m Hm). simpl. exact IH.
Qed.

End CleanTextFacts.

(** X7. Tokens survive the clean text: for tokens of the pattern (class
    characters only, 3 to 50 of them), finding the matches in their
    space-joined text gives the tokens back; so cleaning a clean text again
    leaves it as it is. *)
Theorem findall_join_round_trip (tokens : list string) (s : string) :
  (Forall (fun m => Pattern.all_in_class m = true
                    /\ (3 <= String.length m <= 50)%nat) tokens ->
   Pattern.findall (Py.join " " tokens) = tokens)
  /\ Pattern.findall (Py.join " " (Pattern.findall s)) = Pattern.findall s
  /\ Py.join " " (Pattern.findall (Py.join " " (Pattern.findall s)))
     = Py.join " " (Pattern.findall s).
Proof.
  assert (H : Pattern.findall (Py.join " " (Pattern.findall s))
              = Pattern.findall s).
  { apply findall_join. apply Forall_forall. intros m.
    apply findall_tokens. }
  split; [apply findall_join|]. split; [done | by rewrite H].
Qed.

Lemma findall_join_round_trip_witness :
  Pattern.findall (Py.join " " ["well-known"; "URL"; "2016"]%string)
  = ["well-known"; "URL"; "2016"]%string.
Proof.
  apply (findall_join_round_trip ["well-known"; "URL"; "2016"]%string "").
  repeat constructor.
Defined.

(** X8. A clean text has only characters of the class and spaces: every
    other character of the content (punctuation, line ends, symbols) is
    gone from the clean column of the table the cleaner returns. *)
Theorem cleaner_clean_chars (limit : Z) (df : DataFrame) (i : nat) (r : Row)
    (t : string) :
  cleaner limit df !! i = Some r ->
  clean r = Some (Str t) ->
  forallb clean_char (Py.chars t) = true.
Proof.
  intros H Ht. apply lookup_cleaner, lookup_assign_clean in H
    as (r0 & _ & _ & _ & _ & Hclean).
  rewrite Hclean in Ht. destruct (content r0) as [|s0]; [discriminate Ht|].
  injection Ht as <-.
  apply clean_chars_join. apply Forall_forall. intros m Hm.
  by apply findall_tokens in Hm as [? _].
Qed.

Lemma cleaner_clean_chars_witness :
  forallb clean_char (Py.chars "well-known URL") = true.
Proof.
  apply (cleaner_clean_chars 1
           [Sample.row "It's a well-known URL"; Sample.row "second row"] 0
           {| date := "2016-06-30"; headline := "";
              content := Str "It's a well-known URL";
              clean := Some (Str "well-known URL") |}).
  - vm_compute. reflexivity.
  - reflexivity.
Defined.

Lemma continuation_not_ascii (c : ascii) :
  Py.continuation (N_of_ascii c) = true -> (N_of_ascii c <? 128)%N = false.
Proof.
  unfold Py.continuation. rewrite andb_true_iff, N.leb_le, N.ltb_ge. lia.
Qed.

Lemma ascii_characters_cons (c : ascii) (s : string) :
  ascii_characters (String c s)
  = ((if (N_of_ascii c <? 128)%N then 1 else 0) + ascii_characters s)%nat.
Proof.
  unfold ascii_characters. simpl. rewrite filter_cons.
  destruct (N_of_ascii c <? 128)%N eqn:E; case_decide; simpl; congruence.
Qed.

Lemma ascii_characters_app (a b : string) :
  ascii_characters (a +:+ b)
  = (ascii_characters a + ascii_characters b)%nat.
Proof.
  induction a as [|c a IH]; [done|].
  rewrite string_app_cons, !ascii_characters_cons, IH. lia.
Qed.

(** One step of the decoder: a character, and the decoding of what follows
    its bytes; the bytes after the first are not ASCII. *)
Lemma decode_step (c0 : ascii) (s0 : string) :
  exists cp skipped rest,
    Py.decode (String c0 s0) = cp :: Py.decode rest
    /\ s0 = skipped +:+ rest
    /\ ascii_characters skipped = 0%nat.
Proof.
  simpl. destruct (N_of_ascii c0 <? 128)%N eqn:E0.
  { by exists (N_of_ascii c0), ""%string, s0. }
  destruct s0 as [|c1 s1].
  { by eexists _, ""%string, ""%string. }
  match goal with |- context [if ?b then _ else _] => destruct b eqn:E1 end.
  { apply andb_true_iff in E1 as [_ E1].
    eexists _, (String c1 ""), s1. split; [done|]. split; [done|].
    rewrite ascii_characters_cons. by rewrite continuation_not_ascii. }
  destruct s1 as [|c2 s2].
  { by eexists _, ""%string, (String c1 ""). }
  match goal with |- context [if ?b then _ else _] => destruct b eqn:E2 end.
  { repeat (apply andb_true_iff in E2 as [E2 ?]).
    eexists _, (String c1 (String c2 "")), s2. split; [done|].
    split; [done|]. rewrite !ascii_characters_cons.
    by rewrite !continuation_not_ascii. }
  destruct s2 as [|c3 s3].
  { by eexists _, ""%string, (String c1 (String c2 "")). }
  match goal with |- context [if ?b then _ else _] => destruct b eqn:E3 end.
  { repeat (apply andb_true_iff in E3 as [E3 ?]).
    eexists _, (String c1 (String c2 (String c3 ""))), s3. split; [done|].
    split; [done|]. rewrite !ascii_characters_cons.
    by rewrite !continuation_not_ascii. }
  by eexists _, ""%string, (String c1 (String c2 (String c3 s3))).
Qed.

Lemma ascii_characters_le (s : string) :
  (ascii_characters s <= characters s)%nat.
Proof.
  unfold characters.
  assert (H : forall n s, (String.length s <= n)%nat ->
            (ascii_characters s <= length (Py.decode s))%nat).
  { clear s. induction n as [|n IH]; intros [|c0 s0] Hn;
      [done | simpl in Hn; lia | done |].
    destruct (decode_step c0 s0) as (cp & skipped & rest & -> & -> & Hsk).
    rewrite ascii_characters_cons, ascii_characters_app, Hsk.
    simpl in Hn. rewrite string_length_app in Hn.
    specialize (IH rest ltac:(lia)).
    destruct (N_of_ascii c0 <? 128)%N; simpl; lia. }
  by apply (H (String.length s)).
Qed.

Lemma class_is_ascii (c : ascii) :
  Pattern.in_class c = true -> (N_of_ascii c <? 128)%N = true.
Proof.
  destruct c as [[] [] [] [] [] [] [] []]; intros H;
    (reflexivity || discriminate H).
Qed.

Lemma token_ascii_characters (m : string) :
  Pattern.all_in_class m = true -> ascii_characters m = String.length m.
Proof.
  unfold Pattern.all_in_class. induction m as [|c m IH]; [done|].
  simpl. rewrite andb_true_iff. intros [Hc Hm].
  rewrite ascii_characters_cons, (class_is_ascii c Hc), (IH Hm). done.
Qed.

Lemma findall_ascii_characters (s : string) :
  (total_length (Pattern.findall s) <= ascii_characters s)%nat.
Proof.
  funelim (Pattern.findall s).
  - done.
  - match goal with E : Pattern.match_at _ = Some _ |- _ =>
      destruct (match_at_spec _ _ _ E) as (Happ & Hcls & _) end.
    rewrite Happ, ascii_characters_app, (token_ascii_characters m Hcls).
    simpl. lia.
  - rewrite ascii_characters_cons. lia.
Qed.

(** X9. The tokens found in a text are no more characters than the text
    has, and each has at least 3, so a text has at most a third of its
    length in tokens; a text of fewer than 3 characters (the empty one
    among them) has none, and its clean text is empty. This holds with the
    length counted in characters as well as in bytes. *)
Theorem findall_bounded (s : string) :
  (total_length (Pattern.findall s) <= String.length s)%nat
  /\ (3 * length (Pattern.findall s) <= String.length s)%nat
  /\ ((String.length s < 3)%nat ->
      Pattern.findall s = [] /\ Py.join " " (Pattern.findall s) = ""%string)
  /\ (total_length (Pattern.findall s) <= characters s)%nat
  /\ (3 * length (Pattern.findall s) <= characters s)%nat
  /\ ((characters s < 3)%nat ->
      Pattern.findall s = [] /\ Py.join " " (Pattern.findall s) = ""%string).
Proof.
  destruct (findall_count s) as [H1 H2].
  pose proof (findall_ascii_characters s) as H4.
  pose proof (ascii_characters_le s) as H5.
  assert (H3 : (3 * length (Pattern.findall s) <= String.length s)%nat)
    by lia.
  assert (H6 : (3 * length (Pattern.findall s) <= characters s)%nat) by lia.
  split; [done|]. split; [done|]. split; [|split; [lia|split; [done|]]].
  - intros Hs. destruct (Pattern.findall s) as [|m ms]; [done|].
    rewrite length_cons in H3. lia.
  - intros Hs. destruct (Pattern.findall s) as [|m ms]; [done|].
    rewrite length_cons in H6. lia.
Qed.

Lemma findall_bounded_witness :
  (Pattern.findall "a-" = []
   /\ Py.join " " (Pattern.findall "a-") = ""%string)
  /\ (Pattern.findall "éé" = []
      /\ Py.join " " (Pattern.findall "éé") = ""%string).
Proof.
  split.
  - destruct (findall_bounded "a-") as (_ & _ & Hbytes & _).
    apply Hbytes. simpl. lia.
  - destruct (findall_bounded "éé") as (_ & _ & _ & _ & _ & Hchars).
    apply Hchars. vm_compute. lia.
Defined.



Lemma assign_clean_idemp (df : DataFrame) :
  assign_clean (assign_clean df) = assign_clean df.
Proof.
  unfold assign_clean. rewrite map_map. by apply map_ext.
Qed.

Lemma cleaner_take (limit : Z) (df : DataFrame) :
  cleaner limit df
  = if 0 <? limit then take (Z.to_nat limit) (assign_clean df)
    else assign_clean df.
Proof.
  unfold cleaner. destruct (0 <? limit) eqn:E; [|done].
  apply Z.ltb_lt in E. rewrite slice_prefix by done.
  rewrite length_assign_clean.
  destruct (Z_le_gt_dec limit (Z.of_nat (length df))).
  - by rewrite Z.min_l by lia.
  - rewrite Z.min_r by lia.
    rewrite !take_ge; [done | |]; rewrite length_assign_clean; lia.
Qed.

(** X11. Running the cleaner on its own result changes nothing: the clean
    column is computed from the content alone, whatever clean column the
    table already has, and the same limit keeps the same rows. *)
Theorem cleaner_idempotent (limit : Z) (df : DataFrame) :
  cleaner limit (cleaner limit df) = cleaner limit df.
Proof.
  rewrite !cleaner_take. destruct (0 <? limit).
  - rewrite <- (assign_clean_take _ (assign_clean df)), assign_clean_idemp.
    by rewrite take_take, Nat.min_id.
  - apply assign_clean_idemp.
Qed.

(** ** The cells of the notebook *)








Example notebook_sample :
  preproc_parallel Sample.nlp Sample.stopwords 0
    [Sample.row "The cat sat."; Sample.row "Dogs run fast!"]
  = Some (Py.Ok [["cat"; "sat"]; ["dogs"; "run"; "fast"]]%string).
Proof. vm_compute. reflexivity. Qed.

(** ** Composition of the loops *)

(** X13. The per-chunk loop and the sequential loop treat each text on its
    own: the result for a concatenation of two text sequences is the
    concatenation of the results, the result has one lemma list per text,
    at the same index, and an empty sequence gives an empty result. *)
Theorem process_chunk_compositional (nlp : string -> Doc)
    (stopwords : gset string) (df_preproc : DataFrame)
    (texts1 texts2 : list string) :
  process_chunk nlp stopwords (texts1 ++ texts2)
  = process_chunk nlp stopwords texts1 ++ process_chunk nlp stopwords texts2
  /\ preprocess_pipe nlp stopwords df_preproc (texts1 ++ texts2)
     = preprocess_pipe nlp stopwords df_preproc texts1
       ++ preprocess_pipe nlp stopwords df_preproc texts2
  /\ length (process_chunk nlp stopwords texts1) = length texts1
  /\ length (preprocess_pipe nlp stopwords df_preproc texts1)
     = length texts1
  /\ (forall i,
        process_chunk nlp stopwords texts1 !! i
        = lemmatize nlp stopwords <$> texts1 !! i)
  /\ process_chunk nlp stopwords [] = []
  /\ preprocess_pipe nlp stopwords df_preproc [] = [].
Proof.
  rewrite !process_chunk_map, !preprocess_pipe_map, !map_app, !length_map.
  repeat split; try done. intros i. apply lookup_map.
Qed.

(** ** Flattening *)

Lemma length_flatten {A : Type} (xss : list (list A)) :
  length (flatten xss) = sum_list (map length xss).
Proof.
  induction xss as [|xs xss IH]; simpl; [done|].
  by rewrite length_app, IH.
Qed.

(** X14. Flattening keeps every item and nothing else, in order: the
    flattening of a concatenation is the concatenation of the flattenings,
    the length of the result is the sum of the lengths of the sublists, and
    an item is in the result exactly when it is in one of the sublists
    (empty sublists contribute nothing). *)
Theorem flatten_keeps_items {A : Type} (xss yss : list (list A)) (x : A) :
  flatten (xss ++ yss) = flatten xss ++ flatten yss
  /\ length (flatten xss) = sum_list (map length xss)
  /\ (x ∈ flatten xss <-> exists xs, xs ∈ xss /\ x ∈ xs)
  /\ flatten ([] :: xss) = flatten xss.
Proof.
  split; [apply flatten_app|]. split; [apply length_flatten|].
  split; [|done]. split; [apply elem_of_flatten|].
  intros (xs & Hxs & Hx). induction xss as [|ys xss IH].
  - by apply elem_of_nil in Hxs.
  - simpl. apply elem_of_app. apply elem_of_cons in Hxs as [<- | Hxs].
    + by left.
    + right. by apply IH.
Qed.

(** ** Empty inputs *)

(** X15. For a chunk size other than 0 the parallel workflow returns the
    empty list, without failing, when there is no text, and also when the
    table [df_preproc] is empty, whatever the texts (they are all dropped);
    with a negative chunk size it returns the empty list for every input. *)
Theorem preprocess_parallel_empty (nlp : string -> Doc)
    (stopwords : gset string) (df_preproc : DataFrame)
    (texts : list string) (K : Z) :
  K <> 0 ->
  preprocess_parallel nlp stopwords df_preproc [] K = Py.Ok []
  /\ preprocess_parallel nlp stopwords [] texts K = Py.Ok []
  /\ (K < 0 ->
      preprocess_parallel nlp stopwords df_preproc texts K = Py.Ok []).
Proof.
  intros HK.
  assert (Hneg : forall df ts, K < 0 ->
            preprocess_parallel nlp stopwords df ts K = Py.Ok []).
  { intros df ts Hlt. unfold preprocess_parallel, preprocess_parallel_with,
      chunker. by rewrite range_backwards_empty by lia. }
  destruct (Z_lt_le_dec K 0) as [Hlt | Hge].
  - by rewrite !Hneg.
  - assert (0 < K) as Hpos by lia. unfold preprocess_parallel.
    rewrite !preprocess_parallel_prefix by done.
    split; [by rewrite take_nil|]. split; [|lia].
    simpl. unfold ceil_div. rewrite Z.div_small by lia. done.
Qed.

Lemma preprocess_parallel_empty_witness :
  preprocess_parallel Sample.nlp Sample.stopwords [Sample.row "a"] [] 3
  = Py.Ok []
  /\ preprocess_parallel Sample.nlp Sample.stopwords [] Sample.texts 3
     = Py.Ok [].
Proof.
  destruct (preprocess_parallel_empty Sample.nlp Sample.stopwords
              [Sample.row "a"] Sample.texts 3 ltac:(lia)) as (H1 & H2 & _).
  split; [exact H1 | exact H2].
Defined.

(** ** The bounds of the pattern *)

Lemma span_full (m t : string) :
  Pattern.all_in_class m = true ->
  Pattern.span (String.length m) (m +:+ t) = (m, t).
Proof.
  unfold Pattern.all_in_class.
  induction m as [|c m IH]; simpl; intros Hcls; [done|].
  apply andb_true_iff in Hcls as [Hc Hcls].
  rewrite string_app_cons, Hc. by rewrite (IH Hcls).
Qed.

Lemma match_at_short (w rest : string) :
  Pattern.all_in_class w = true -> (String.length w < 3)%nat ->
  boundary rest ->
  Pattern.match_at (w +:+ rest) = None.
Proof.
  intros Hcls Hlen Hb. unfold Pattern.match_at.
  rewrite span_token; [|done | lia | done].
  by rewrite (proj2 (Nat.leb_gt 3 (String.length w))) by lia.
Qed.

(** X16. The bounds 3 and 50 of the pattern: a run of fewer than 3 class
    characters standing alone (before the end of the text or a character
    that is not of the class) gives no token, and a run of class characters
    is cut after its 50th character, the search going on right after the
    cut whatever follows. *)
Theorem findall_bounds (run rest : string) :
  Pattern.all_in_class run = true ->
  ((String.length run < 3)%nat -> boundary rest ->
   Pattern.findall (run +:+ rest) = Pattern.findall rest)
  /\ (String.length run = 50%nat ->
      Pattern.findall (run +:+ rest) = run :: Pattern.findall rest).
Proof.
  intros Hcls. split.
  - intros Hlen Hb. induction run as [|c run IH]; [done|].
    rewrite findall_unfold, string_app_cons.
    rewrite <- string_app_cons, (match_at_short _ rest Hcls Hlen Hb).
    unfold Pattern.all_in_class in Hcls. simpl in Hcls.
    apply andb_true_iff in Hcls as [_ Hcls]. simpl in Hlen.
    apply IH; [done | lia].
  - intros Hlen. rewrite findall_unfold.
    assert (Hm : Pattern.match_at (run +:+ rest) = Some (run, rest)).
    { unfold Pattern.match_at. rewrite <- Hlen at 1.
      rewrite (span_full run rest Hcls).
      by rewrite (proj2 (Nat.leb_le 3 (String.length run))) by lia. }
    rewrite Hm. destruct run as [|c run]; [discriminate Hlen|].
    by rewrite string_app_cons.
Qed.

Lemma findall_bounds_witness :
  Pattern.findall ("is" +:+ " a well-known fact")
  = Pattern.findall " a well-known fact"
  /\ Pattern.findall
       ("aaaaaaaaaabbbbbbbbbbccccccccccddddddddddeeeeeeeeee" +:+ "fgh")
     = "aaaaaaaaaabbbbbbbbbbccccccccccddddddddddeeeeeeeeee"%string
       :: Pattern.findall "fgh".
Proof.
  split.
  - apply (findall_bounds "is" " a well-known fact"); [reflexivity | | ].
    + simpl. lia.
    + right. by exists " "%char, "a well-known fact"%string.
  - apply (findall_bounds
             "aaaaaaaaaabbbbbbbbbbccccccccccddddddddddeeeeeeeeee" "fgh");
      reflexivity.
Defined.
